(** * Upload broker of secure-multimedia-storage (src/backend/upload.py)

    A shallow embedding of the Lambda handler [handler] and the functions
    it calls: [validate_file], [generate_file_id], [create_signed_url],
    [store_file_metadata], [handle_get_upload_url], [handle_complete_upload]
    and [handle_get_download_url].

    Strings are modelled as [String.string]: a Rocq [ascii] stands for one
    code point below U+0100 (Latin-1), so the model covers the Python
    strings made of such code points; on them [.encode()] is UTF-8 and
    [.lower()] maps each upper-case letter to its lower-case one.  The
    external services (Cognito, S3 presigning, DynamoDB's availability and
    its own validation of items, and the clock) are the fields of an
    environment [env] read by one request; the DynamoDB table itself is a
    [gmap] keyed by [(file_id, user_id)] and threaded through a
    state-and-exception monad together with a log of the calls made to
    collaborators. *)

From Stdlib Require Import ZArith String Ascii.
From stdpp Require Import base gmap strings list.

Open Scope Z_scope.

(* ------------------------------------------------------------------ *)
(** ** Python string helpers *)

Definition chr (n : nat) : ascii := ascii_of_nat n.

(** [s.startswith(p)] *)
Fixpoint startswith (p s : string) : bool :=
  match p, s with
  | EmptyString, _ => true
  | String c p', String d s' => if Ascii.eqb c d then startswith p' s' else false
  | String _ _, EmptyString => false
  end.

(** [s.split(c)] with a one-character separator: every occurrence splits. *)
Fixpoint split_char (c : ascii) (s : string) : list string :=
  match s with
  | EmptyString => [EmptyString]
  | String d s' =>
      if Ascii.eqb c d then EmptyString :: split_char c s'
      else match split_char c s' with
           | w :: ws => String d w :: ws
           | [] => [String d EmptyString]
           end
  end.

(** [s.lower()] on code points below U+0100: A-Z and the Latin-1 capitals
    U+00C0-U+00DE except U+00D7 (the multiplication sign) move up by 32;
    every other code point of the range is its own lower case. *)
Definition lower_char (c : ascii) : ascii :=
  let n := nat_of_ascii c in
  if ((65 <=? n)%nat && (n <=? 90)%nat)
     || ((192 <=? n)%nat && (n <=? 222)%nat && negb (n =? 215)%nat)
  then chr (n + 32) else c.

Fixpoint lower (s : string) : string :=
  match s with
  | EmptyString => EmptyString
  | String c s' => String (lower_char c) (lower s')
  end.

(** [s.rfind(c)]: index of the last occurrence of [c], or -1. *)
Fixpoint rfind_from (c : ascii) (s : string) (i : Z) (best : Z) : Z :=
  match s with
  | EmptyString => best
  | String d s' => rfind_from c s' (i + 1) (if Ascii.eqb c d then i else best)
  end.

Definition rfind (c : ascii) (s : string) : Z := rfind_from c s 0 (-1).

Definition slash : ascii := "/"%char.
Definition dot : ascii := "."%char.

(** [posixpath.splitext(p)[1]]: the extension is the part from the last dot,
    provided that dot lies after the last slash and is preceded, within the
    last path component, by a character other than a dot. *)
Definition splitext_ext (p : string) : string :=
  let sepIndex := rfind slash p in
  let dotIndex := rfind dot p in
  if sepIndex <? dotIndex then
    let stem := substring (Z.to_nat (sepIndex + 1))
                          (Z.to_nat (dotIndex - sepIndex - 1)) p in
    if existsb (fun c => negb (Ascii.eqb c dot)) (list_ascii_of_string stem)
    then substring (Z.to_nat dotIndex) (String.length p - Z.to_nat dotIndex) p
    else EmptyString
  else EmptyString.

(* ------------------------------------------------------------------ *)
(** ** MD5 ([hashlib.md5(...).hexdigest()]) *)

Module MD5.

Definition mask32 : Z := Z.ones 32.
Definition add32 (a b : Z) : Z := Z.land (a + b) mask32.
Definition not32 (a : Z) : Z := Z.lxor a mask32.
Definition rotl32 (x : Z) (s : Z) : Z :=
  Z.land (Z.lor (Z.shiftl x s) (Z.shiftr x (32 - s))) mask32.

Definition K : list Z :=
  [3614090360; 3905402710; 606105819; 3250441966; 4118548399; 1200080426;
   2821735955; 4249261313; 1770035416; 2336552879; 4294925233; 2304563134;
   1804603682; 4254626195; 2792965006; 1236535329; 4129170786; 3225465664;
   643717713; 3921069994; 3593408605; 38016083; 3634488961; 3889429448;
   568446438; 3275163606; 4107603335; 1163531501; 2850285829; 4243563512;
   1735328473; 2368359562; 4294588738; 2272392833; 1839030562; 4259657740;
   2763975236; 1272893353; 4139469664; 3200236656; 681279174; 3936430074;
   3572445317; 76029189; 3654602809; 3873151461; 530742520; 3299628645;
   4096336452; 1126891415; 2878612391; 4237533241; 1700485571; 2399980690;
   4293915773; 2240044497; 1873313359; 4264355552; 2734768916; 1309151649;
   4149444226; 3174756917; 718787259; 3951481745].

Definition Shifts : list Z :=
  [7; 12; 17; 22; 7; 12; 17; 22; 7; 12; 17; 22; 7; 12; 17; 22;
   5; 9; 14; 20; 5; 9; 14; 20; 5; 9; 14; 20; 5; 9; 14; 20;
   4; 11; 16; 23; 4; 11; 16; 23; 4; 11; 16; 23; 4; 11; 16; 23;
   6; 10; 15; 21; 6; 10; 15; 21; 6; 10; 15; 21; 6; 10; 15; 21].

(** Little-endian 32-bit word [i] of a 64-byte block. *)
Definition word_le (blk : list Z) (i : nat) : Z :=
  let b k := nth (4 * i + k)%nat blk 0 in
  b 0%nat + Z.shiftl (b 1%nat) 8 + Z.shiftl (b 2%nat) 16 + Z.shiftl (b 3%nat) 24.

Record md5_state := MkSt { sa : Z; sb : Z; sc : Z; sd : Z }.

Definition md5_init : md5_state :=
  MkSt 1732584193 4023233417 2562383102 271733878.

Definition md5_round (blk : list Z) (st : md5_state) (i : nat) : md5_state :=
  let '(MkSt a b c d) := st in
  let '(f, g) :=
    if (i <? 16)%nat then (Z.lor (Z.land b c) (Z.land (not32 b) d), i)
    else if (i <? 32)%nat then (Z.lor (Z.land d b) (Z.land (not32 d) c), (5 * i + 1) mod 16)%nat
    else if (i <? 48)%nat then (Z.lxor b (Z.lxor c d), (3 * i + 5) mod 16)%nat
    else (Z.lxor c (Z.lor b (not32 d)), (7 * i) mod 16)%nat in
  let f' := add32 (add32 (add32 f a) (nth i K 0)) (word_le blk g) in
  MkSt d (add32 b (rotl32 f' (nth i Shifts 0))) b c.

Definition md5_block (st : md5_state) (blk : list Z) : md5_state :=
  let '(MkSt a b c d) := st in
  let '(MkSt a' b' c' d') := fold_left (md5_round blk) (seq 0 64) st in
  MkSt (add32 a a') (add32 b b') (add32 c c') (add32 d d').

Fixpoint md5_blocks (n : nat) (st : md5_state) (msg : list Z) : md5_state :=
  match n with
  | O => st
  | S n' => md5_blocks n' (md5_block st (firstn 64 msg)) (skipn 64 msg)
  end.

Definition le_bytes (n : nat) (x : Z) : list Z :=
  map (fun k => Z.land (Z.shiftr x (8 * Z.of_nat k)) 255) (seq 0 n).

Definition pad (msg : list Z) : list Z :=
  let len := Z.of_nat (length msg) in
  msg ++ [128] ++ repeat 0 (Z.to_nat ((55 - len) mod 64))
      ++ le_bytes 8 (Z.land (8 * len) (Z.ones 64)).

Definition hex_char (n : Z) : ascii :=
  match String.get (Z.to_nat n) "0123456789abcdef" with
  | Some c => c
  | None => "0"%char
  end.

Fixpoint hex (bs : list Z) : string :=
  match bs with
  | [] => EmptyString
  | b :: bs' => String (hex_char (Z.shiftr b 4)) (String (hex_char (Z.land b 15)) (hex bs'))
  end.

(** UTF-8 bytes of a code point below U+0100. *)
Definition utf8 (n : Z) : list Z :=
  if n <? 128 then [n] else [Z.lor 192 (Z.shiftr n 6); Z.lor 128 (Z.land n 63)].

(** [s.encode()] *)
Definition encode (s : string) : list Z :=
  flat_map (fun c => utf8 (Z.of_nat (nat_of_ascii c))) (list_ascii_of_string s).

Definition hexdigest (s : string) : string :=
  let m := pad (encode s) in
  let '(MkSt a b c d) := md5_blocks (length m / 64) md5_init m in
  hex (le_bytes 4 a ++ le_bytes 4 b ++ le_bytes 4 c ++ le_bytes 4 d).

End MD5.

(** [generate_file_id(user_id, filename)]; [timestamp] is the value of
    [datetime.now(timezone.utc).isoformat()] read by the call. *)
Definition generate_file_id (user_id filename timestamp : string) : string :=
  let file_hash := MD5.hexdigest (user_id +:+ filename +:+ timestamp) in
  user_id +:+ "_" +:+ substring 0 8 file_hash.

(* ------------------------------------------------------------------ *)
(** ** JSON values and Python dict access *)

Set Warnings "-register-all".

(** A Python [float]: [FFinite m e] is [m * 2^e]; [json.loads] also
    yields infinities (for [Infinity], [-Infinity] and literals too large
    for a double) and NaN. *)
Inductive pyfloat :=
| FFinite (m e : Z)
| FInf (neg : bool)
| FNaN.

(** [f > n] for a float [f] and an int [n]: Python compares exactly. *)
Definition float_gt (f : pyfloat) (n : Z) : bool :=
  match f with
  | FFinite m e => if 0 <=? e then n <? m * 2 ^ e else n * 2 ^ (- e) <? m
  | FInf neg => negb neg
  | FNaN => false
  end.

Definition float_is_zero (f : pyfloat) : bool :=
  match f with FFinite m _ => m =? 0 | _ => false end.

(** The Python values the code handles: those [json.loads] decodes
    ([None], bool, int, str, list, dict, float) and the [Decimal] numbers
    boto3 returns for the numbers stored in DynamoDB. *)
Inductive json :=
| JNull
| JBool (b : bool)
| JNum (z : Z)
| JStr (s : string)
| JArr (l : list json)
| JObj (fields : list (string * json))
| JFloat (f : pyfloat)
| JDecimal (z : Z).

(** [d.get(k)] on the dict decoded by [json.loads]: a repeated key keeps
    its last value. *)
Definition jget (k : string) (fields : list (string * json)) : option json :=
  match find (fun p => String.eqb (fst p) k) (rev fields) with
  | Some (_, v) => Some v
  | None => None
  end.

(** [d.get(k, default)] *)
Definition jget_default (k : string) (fields : list (string * json)) (d : json) : json :=
  match jget k fields with Some v => v | None => d end.

(** Python truthiness of a decoded JSON value. *)
Definition truthy (j : json) : bool :=
  match j with
  | JNull => false
  | JBool b => b
  | JNum z => negb (z =? 0)
  | JStr s => negb (String.eqb s EmptyString)
  | JArr l => negb (length l =? 0)%nat
  | JObj l => negb (length l =? 0)%nat
  | JFloat f => negb (float_is_zero f)
  | JDecimal z => negb (z =? 0)
  end.

(* ------------------------------------------------------------------ *)
(** ** Exceptions, records, the table and the request environment *)

Inductive exn :=
| TypeError
| AttributeError
| ClientError (code : string)
| ValueError
| RecursionError
(** [decimal.Rounded], raised by boto3's number conversion *)
| DecimalException.

Inductive outcome (A : Type) :=
| Ok (a : A)
| Raise (e : exn).
Arguments Ok {A} a.
Arguments Raise {A} e.

(** An item of [FILES_TABLE], as built by [store_file_metadata]. *)
Record item := {
  file_id : string;
  user_id : string;
  filename : string;
  file_type : string;
  file_size : json;
  content_type : json;
  s3_key : string;
  title : json;
  description : json;
  tags : json;
  upload_date : string;
  last_modified : string;
  version : Z;
  status : string
}.

(** DynamoDB table keyed by [{'file_id': .., 'user_id': ..}]. *)
Abbreviation files_table := (gmap (string * string) item).

Definition item_key (it : item) : string * string := (file_id it, user_id it).

(** The first exception of a list of conversions, in order. *)
Fixpoint first_error (l : list (option exn)) : option exn :=
  match l with
  | [] => None
  | Some e :: _ => Some e
  | None :: l' => first_error l'
  end.

(** boto3's [TypeSerializer] on a value: [Some e] when it raises [e].  A
    float raises [TypeError]; an int or Decimal is converted in a context
    of 38 digits that traps rounding, so one of 39 digits or more raises
    [decimal.Rounded]; lists and dicts are converted element by element. *)
Fixpoint serialize_error (j : json) : option exn :=
  match j with
  | JFloat _ => Some TypeError
  | JNum z | JDecimal z => if Z.abs z <? 10 ^ 38 then None else Some DecimalException
  | JArr l => first_error (map serialize_error l)
  | JObj fs => first_error (map (fun p => serialize_error (snd p)) fs)
  | _ => None
  end.

(** The values of an item that come from the request, in the order of the
    item's dict; its other fields are strings and the int 1. *)
Definition item_values (it : item) : list json :=
  [file_size it; content_type it; title it; description it; tags it].

Definition item_serialize_error (it : item) : option exn :=
  first_error (map serialize_error (item_values it)).

(** boto3's [TypeDeserializer]: a stored number comes back as [Decimal]. *)
Fixpoint from_dynamodb (j : json) : json :=
  match j with
  | JNum z => JDecimal z
  | JArr l => JArr (map from_dynamodb l)
  | JObj fs => JObj (map (fun p => (fst p, from_dynamodb (snd p))) fs)
  | _ => j
  end.

(** An item as [get_item] returns it. *)
Definition item_from_dynamodb (it : item) : item :=
  {| file_id := file_id it; user_id := user_id it;
     filename := filename it; file_type := file_type it;
     file_size := from_dynamodb (file_size it);
     content_type := from_dynamodb (content_type it);
     s3_key := s3_key it;
     title := from_dynamodb (title it);
     description := from_dynamodb (description it);
     tags := from_dynamodb (tags it);
     upload_date := upload_date it; last_modified := last_modified it;
     version := version it; status := status it |}.

(** [json.dumps] encodes every value except a [Decimal], on which it
    raises [TypeError]. *)
Fixpoint dumpable (j : json) : bool :=
  match j with
  | JDecimal _ => false
  | JArr l => forallb dumpable l
  | JObj fs => forallb (fun p => dumpable (snd p)) fs
  | _ => true
  end.

(** Calls made to collaborators during a request. *)
Inductive call :=
| CVerify (token : string)
| CPresign (operation key : string)
| CPutItem (key : string * string)
| CUpdateItem (key : string * string)
| CGetItem (key : string * string).

Record world := { table : files_table; calls : list call }.

(** What the external services answer during one request. *)
Record env := {
  (** [verify_token]: the [sub] of a token Cognito accepts, [None] on any
      failure (its [except Exception] returns [None]). *)
  cognito_verify : string -> option string;
  (** [s3_client.generate_presigned_url(method, Key, ContentType)];
      [None] when the call raises. *)
  s3_presign : string -> string -> option string -> option string;
  (** [Some code]: DynamoDB raises [ClientError code] on every call. *)
  ddb_error : option string;
  (** DynamoDB's own validation of an item given to [put_item]: [Some code]
      when it refuses the item with [ClientError code] (for instance a
      ValidationException for an item over 400 KB or nested deeper than
      32 levels). *)
  ddb_rejects : item -> option string;
  (** [datetime.now(timezone.utc).isoformat()] *)
  now : string
}.

(* ------------------------------------------------------------------ *)
(** ** A state and exception monad over [world] *)

Definition M (A : Type) : Type := world -> outcome A * world.

Global Instance M_ret : MRet M := fun A a w => (Ok a, w).
Global Instance M_bind : MBind M := fun A B k m w =>
  match m w with
  | (Ok a, w') => k a w'
  | (Raise e, w') => (Raise e, w')
  end.

Definition raise {A} (e : exn) : M A := fun w => (Raise e, w).

Definition lift {A} (o : outcome A) : M A :=
  match o with Ok a => mret a | Raise e => raise e end.

(** [try: m except: h] *)
Definition try_catch {A} (m : M A) (h : exn -> M A) : M A := fun w =>
  match m w with
  | (Ok a, w') => (Ok a, w')
  | (Raise e, w') => h e w'
  end.

Definition log (c : call) : M unit := fun w =>
  (Ok tt, {| table := table w; calls := calls w ++ [c] |}).

Definition get_table : M files_table := fun w => (Ok (table w), w).

Definition put_table (t : files_table) : M unit := fun w =>
  (Ok tt, {| table := t; calls := calls w |}).

(* ------------------------------------------------------------------ *)
(** ** Policy constants *)

Definition MAX_FILE_SIZE : Z := 100 * 1024 * 1024.

Definition ALLOWED_EXTENSIONS : list (string * list string) :=
  [("image", [".jpg"; ".jpeg"; ".png"; ".gif"; ".bmp"; ".webp"]);
   ("document", [".pdf"; ".doc"; ".docx"; ".txt"; ".rtf"; ".odt"]);
   ("video", [".mp4"; ".avi"; ".mov"; ".wmv"; ".flv"; ".webm"]);
   ("audio", [".mp3"; ".wav"; ".flac"; ".aac"; ".ogg"])].

Definition mem_string (x : string) (l : list string) : bool :=
  existsb (String.eqb x) l.

(** The flattened list built by the loop of [validate_file]. *)
Definition allowed_extensions : list string :=
  concat (map snd ALLOWED_EXTENSIONS).

Definition size_msg : string :=
  "File size exceeds maximum limit of 104857600 bytes".
Definition type_msg (ext : string) : string :=
  "File type " +:+ ext +:+ " is not allowed".
Definition name_msg : string := "Invalid filename".

(* ------------------------------------------------------------------ *)
(** ** [validate_file] *)

(** [x > MAX_FILE_SIZE] on the decoded [size]: ints, bools and floats
    compare, other JSON values raise [TypeError]. *)
Definition size_exceeds (j : json) : outcome bool :=
  match j with
  | JNum z => Ok (z >? MAX_FILE_SIZE)
  | JBool b => Ok ((if b then 1 else 0) >? MAX_FILE_SIZE)
  | JFloat f => Ok (float_gt f MAX_FILE_SIZE)
  | JDecimal z => Ok (z >? MAX_FILE_SIZE)
  | _ => Raise TypeError
  end.

(** [os.path.splitext] accepts only strings. *)
Definition as_str (j : json) : outcome string :=
  match j with JStr s => Ok s | _ => Raise TypeError end.

Definition validate_file (file_info : json) : outcome (list string) :=
  match file_info with
  | JObj fi =>
      match size_exceeds (jget_default "size" fi (JNum 0)) with
      | Raise e => Raise e
      | Ok big =>
          let errors := if big then [size_msg] else [] in
          match as_str (jget_default "name" fi (JStr EmptyString)) with
          | Raise e => Raise e
          | Ok fname =>
              let file_extension := lower (splitext_ext fname) in
              let errors := errors ++
                (if mem_string file_extension allowed_extensions then []
                 else [type_msg file_extension]) in
              let errors := errors ++
                (if String.eqb fname EmptyString || (255 <? String.length fname)%nat
                 then [name_msg] else []) in
              Ok errors
          end
      end
  | _ => Raise AttributeError
  end.

(* ------------------------------------------------------------------ *)
(** ** Collaborator calls *)

Definition verify_token (E : env) (token : string) : M (option string) :=
  _ ← log (CVerify token); mret (cognito_verify E token).

(** The content type chosen by the loop of [create_signed_url]. *)
Definition category_content_type (file_type ext : string) : string :=
  if String.eqb file_type "image" then "image/" +:+ substring 1 (String.length ext - 1) ext
  else if String.eqb file_type "document" then
    (if String.eqb ext ".pdf" then "application/pdf" else "application/msword")
  else if String.eqb file_type "video" then "video/" +:+ substring 1 (String.length ext - 1) ext
  else if String.eqb file_type "audio" then "audio/" +:+ substring 1 (String.length ext - 1) ext
  else "application/octet-stream".

(** First category of [ALLOWED_EXTENSIONS] listing [ext] ([break]). *)
Definition category_of (ext : string) : option string :=
  match find (fun p => mem_string ext (snd p)) ALLOWED_EXTENSIONS with
  | Some (file_type, _) => Some file_type
  | None => None
  end.

Definition object_key (user_id file_id filename : string) : string :=
  "uploads/" +:+ user_id +:+ "/" +:+ file_id +:+ "/" +:+ filename.

Definition create_signed_url (E : env) (file_id filename user_id operation : string)
  : M (option string) :=
  let file_extension := lower (splitext_ext filename) in
  let content_type :=
    match category_of file_extension with
    | Some ft => category_content_type ft file_extension
    | None => "application/octet-stream"
    end in
  let key := object_key user_id file_id filename in
  if String.eqb operation "put_object" then
    _ ← log (CPresign "put_object" key);
    mret (s3_presign E "put_object" key (Some content_type))
  else
    _ ← log (CPresign "get_object" key);
    mret (s3_presign E "get_object" key None).

(** [table.put_item(Item=item)]: unconditional.  boto3 serializes the
    item before sending it; DynamoDB then fails or refuses it, or stores it. *)
Definition put_item (E : env) (it : item) : M unit :=
  _ ← log (CPutItem (item_key it));
  match item_serialize_error it with
  | Some e => raise e
  | None =>
      match ddb_error E with
      | Some code => raise (ClientError code)
      | None =>
          match ddb_rejects E it with
          | Some code => raise (ClientError code)
          | None => t ← get_table; put_table (<[item_key it := it]> t)
          end
      end
  end.

(** The item after [SET #status = 'completed', last_modified = :last_modified]. *)
Definition mark_completed (it : item) (ts : string) : item :=
  {| file_id := file_id it; user_id := user_id it;
     filename := filename it; file_type := file_type it;
     file_size := file_size it; content_type := content_type it;
     s3_key := s3_key it; title := title it;
     description := description it; tags := tags it;
     upload_date := upload_date it; last_modified := ts;
     version := version it; status := "completed" |}.

(** [table.update_item] of [handle_complete_upload], with
    [ConditionExpression='attribute_exists(file_id) AND user_id = :user_id']. *)
Definition update_item_complete (E : env) (key : string * string) : M unit :=
  _ ← log (CUpdateItem key);
  match ddb_error E with
  | Some code => raise (ClientError code)
  | None =>
      t ← get_table;
      match t !! key with
      | Some it =>
          if String.eqb (user_id it) key.2 then
            put_table (<[key := mark_completed it (now E)]> t)
          else raise (ClientError "ConditionalCheckFailedException")
      | None => raise (ClientError "ConditionalCheckFailedException")
      end
  end.

(** [table.get_item(Key=...)]; [None] when the response has no [Item]. *)
Definition get_item (E : env) (key : string * string) : M (option item) :=
  _ ← log (CGetItem key);
  match ddb_error E with
  | Some code => raise (ClientError code)
  | None => t ← get_table; mret (item_from_dynamodb <$> t !! key)
  end.

(** A key attribute that is not a string: boto3's serializer raises on
    it, or else DynamoDB refuses it. *)
Definition key_string (j : json) : M string :=
  match j with
  | JStr s => mret s
  | _ =>
      match serialize_error j with
      | Some e => raise e
      | None => raise (ClientError "ValidationException")
      end
  end.

Definition as_dict (j : json) : M (list (string * json)) :=
  match j with JObj fs => mret fs | _ => raise AttributeError end.

(* ------------------------------------------------------------------ *)
(** ** [store_file_metadata] *)

Definition store_file_metadata (E : env) (file_id0 user_id0 filename0 : string)
    (file_info metadata : json) : M bool :=
  try_catch
    (let file_extension := lower (splitext_ext filename0) in
     let file_type0 := match category_of file_extension with
                       | Some ft => ft | None => "other" end in
     fi ← as_dict file_info;
     md ← as_dict metadata;
     let it := {|
       file_id := file_id0;
       user_id := user_id0;
       filename := filename0;
       file_type := file_type0;
       file_size := jget_default "size" fi (JNum 0);
       content_type := jget_default "type" fi (JStr "application/octet-stream");
       s3_key := object_key user_id0 file_id0 filename0;
       title := jget_default "title" md (JStr filename0);
       description := jget_default "description" md (JStr EmptyString);
       tags := jget_default "tags" md (JArr []);
       upload_date := now E;
       last_modified := now E;
       version := 1;
       status := "uploading" |} in
     _ ← put_item E it;
     mret true)
    (fun _ => mret false).

(* ------------------------------------------------------------------ *)
(** ** Responses and the three operations *)

(** The response dict of [create_response(status_code, body)], its body
    before [json.dumps]; the constant CORS headers are left out. *)
Record response := { statusCode : Z; body : json }.

Definition create_response (code : Z) (b : json) : response :=
  {| statusCode := code; body := b |}.

(** A call [create_response(status_code, body)]: [json.dumps(body)] raises
    [TypeError] on a body it cannot encode. *)
Definition respond (code : Z) (b : json) : M response :=
  if dumpable b then mret (create_response code b) else raise TypeError.

Definition error_response (code : Z) (msg : string) : M response :=
  respond code (JObj [("error", JStr msg)]).

Definition opt_truthy (o : option string) : bool :=
  match o with Some u => negb (String.eqb u EmptyString) | None => false end.

Definition handle_get_upload_url (E : env) (bd : list (string * json)) (uid : string)
  : M response :=
  let file_info := jget_default "file_info" bd (JObj []) in
  let metadata := jget_default "metadata" bd (JObj []) in
  validation_errors ← lift (validate_file file_info);
  match validation_errors with
  | _ :: _ =>
      respond 400 (JObj [("error", JStr "File validation failed");
                         ("details", JArr (map JStr validation_errors))])
  | [] =>
      fi ← as_dict file_info;
      fname ← lift (as_str (jget_default "name" fi (JStr EmptyString)));
      let fid := generate_file_id uid fname (now E) in
      upload_url ← create_signed_url E fid fname uid "put_object";
      if negb (opt_truthy upload_url) then
        error_response 500 "Failed to generate upload URL"
      else
        stored ← store_file_metadata E fid uid fname file_info metadata;
        if negb stored then error_response 500 "Failed to store file metadata"
        else respond 200 (JObj
               [("upload_url", JStr (default EmptyString upload_url));
                ("file_id", JStr fid); ("expires_in", JNum 3600)])
  end.

Definition handle_complete_upload (E : env) (bd : list (string * json)) (uid : string)
  : M response :=
  let fid := jget_default "file_id" bd JNull in
  if negb (truthy fid) then error_response 400 "Missing file_id"
  else
    try_catch
      (f ← key_string fid;
       _ ← update_item_complete E (f, uid);
       respond 200 (JObj [("message", JStr "Upload completed successfully")]))
      (fun e => match e with
                | ClientError code =>
                    if String.eqb code "ConditionalCheckFailedException"
                    then error_response 404 "File not found or access denied"
                    else error_response 500 "Database error"
                | _ => raise e
                end).

Definition handle_get_download_url (E : env) (bd : list (string * json)) (uid : string)
  : M response :=
  let fid := jget_default "file_id" bd JNull in
  if negb (truthy fid) then error_response 400 "Missing file_id"
  else
    try_catch
      (f ← key_string fid;
       response0 ← get_item E (f, uid);
       match response0 with
       | None => error_response 404 "File not found"
       | Some file_item =>
           download_url ← create_signed_url E f (filename file_item) uid "get_object";
           if negb (opt_truthy download_url) then
             error_response 500 "Failed to generate download URL"
           else respond 200 (JObj
             [("download_url", JStr (default EmptyString download_url));
              ("file_info", JObj
                 [("filename", JStr (filename file_item));
                  ("file_type", JStr (file_type file_item));
                  ("file_size", file_size file_item);
                  ("title", title file_item);
                  ("description", description file_item);
                  ("tags", tags file_item)]);
              ("expires_in", JNum 3600)])
       end)
      (fun _ => error_response 500 "Internal server error").

(* ------------------------------------------------------------------ *)
(** ** [handler] *)

(** The [body] of the event, as [json.loads] takes it: text it decodes to
    [j]; text it rejects with [json.JSONDecodeError]; text it rejects with
    another exception [e] ([RecursionError] for deep nesting, [ValueError]
    for an integer literal over 4300 digits); or [null] ([None], on which
    it raises [TypeError]). *)
Inductive raw_body :=
| RawJSON (j : json)
| RawInvalid
| RawRejected (e : exn)
| RawNull.

(** [headers] is [None] when the event's [headers] is [null]; an event
    without [headers] behaves as one with [Some ∅], since
    [event.get('headers', {})] gives [{}].  [ev_body] is [None] when the
    event has no [body]. *)
Record event := {
  httpMethod : option string;
  headers : option (gmap string string);
  ev_body : option raw_body
}.

(** [operation == s] for a decoded JSON value. *)
Definition json_is (j : json) (s : string) : bool :=
  match j with JStr s' => String.eqb s' s | _ => false end.

Definition handler (E : env) (ev : event) : M response :=
  try_catch
    (if decide (httpMethod ev = Some "OPTIONS") then
       respond 200 (JObj [("message", JStr "OK")])
     else
       match headers ev with
       | None => raise AttributeError
       | Some hs =>
           let auth_header := default EmptyString (hs !! "Authorization") in
           if negb (startswith "Bearer " auth_header) then
             error_response 401 "Missing or invalid authorization header"
           else
             let token := nth 1 (split_char " "%char auth_header) EmptyString in
             user_info ← verify_token E token;
             match user_info with
             | None => error_response 401 "Invalid or expired token"
             | Some uid =>
                 match default (RawJSON (JObj [])) (ev_body ev) with
                 | RawInvalid => error_response 400 "Invalid JSON in request body"
                 | RawRejected e => raise e
                 | RawNull => raise TypeError
                 | RawJSON j =>
                     bd ← as_dict j;
                     let operation := jget_default "operation" bd (JStr "get_upload_url") in
                     if json_is operation "get_upload_url" then handle_get_upload_url E bd uid
                     else if json_is operation "complete_upload" then handle_complete_upload E bd uid
                     else if json_is operation "get_download_url" then handle_get_download_url E bd uid
                     else error_response 400 "Invalid operation"
                 end
             end
       end)
    (fun _ => error_response 500 "Internal server error").

(* ------------------------------------------------------------------ *)
(** ** A concrete scenario *)

Definition t1 : string := "2026-10-17T12:00:00.022053+00:00".
Definition t2 : string := "2026-10-17T12:00:00.061470+00:00".

(** Cognito accepts [tok_u1] and [tok_u2]; S3 presigns every key. *)
Definition env_at (ts : string) : env := {|
  cognito_verify := fun tok =>
    if String.eqb tok "tok_u1" then Some "u1"
    else if String.eqb tok "tok_u2" then Some "u2" else None;
  s3_presign := fun m k _ => Some ("https://bucket.s3/" +:+ k);
  ddb_error := None;
  ddb_rejects := fun _ => None;
  now := ts |}.

Definition world0 : world := {| table := ∅; calls := [] |}.

Definition post (auth : string) (bd : list (string * json)) : event := {|
  httpMethod := Some "POST";
  headers := Some {[ "Authorization" := auth ]};
  ev_body := Some (RawJSON (JObj bd)) |}.

Definition upload_body (name : string) (size : Z) (ttl : string) : list (string * json) :=
  [("operation", JStr "get_upload_url");
   ("file_info", JObj [("name", JStr name); ("size", JNum size); ("type", JStr "image/jpeg")]);
   ("metadata", JObj [("title", JStr ttl)])].

Definition step (E : env) (ev : event) (w : world) : world := snd (handler E ev w).

Definition w1 : world := step (env_at t1) (post "Bearer tok_u1" (upload_body "photo.jpg" 1024 "first")) world0.
Definition w2 : world := step (env_at t1) (post "Bearer tok_u1" [("operation", JStr "complete_upload"); ("file_id", JStr "u1_0f345508")]) w1.
Definition w3 : world := step (env_at t2) (post "Bearer tok_u1" (upload_body "photo.jpg" 2048 "second")) w2.

Definition status_at (w : world) (k : string * string) : option string :=
  status <$> (table w !! k).

(* ------------------------------------------------------------------ *)
(** ** Reachable states and auxiliary predicates *)

(** States of the table reachable from an empty table by requests. *)
Inductive reachable : world -> Prop :=
| reach_init : reachable world0
| reach_step (E : env) (ev : event) (w : world) :
    reachable w -> reachable (step E ev w).

(** The [operation] value the handler dispatches on (lines 202 and 207). *)
Definition requested_operation (ev : event) : option json :=
  match default (RawJSON (JObj [])) (ev_body ev) with
  | RawJSON (JObj bd) => Some (jget_default "operation" bd (JStr "get_upload_url"))
  | _ => None
  end.

(** Every item is stored under its own [(file_id, user_id)]. *)
Definition table_wf (t : files_table) : Prop :=
  forall k it, t !! k = Some it -> item_key it = k.

(** The only ways [m] may change the table: [R t t'] relates the table
    before and after. *)
Definition eff {A : Type} (R : files_table -> files_table -> Prop) (m : M A) : Prop :=
  forall w, R (table w) (table (snd (m w))).

(** [m] leaves the table unchanged. *)
Definition ro {A : Type} (m : M A) : Prop := eff (fun t t' => t' = t) m.

(** Table changes allowed to one request. *)
Definition handler_effect (E : env) (ev : event) (t t' : files_table) : Prop :=
  t' = t
  \/ (requested_operation ev = Some (JStr "get_upload_url")
      /\ exists it, status it = "uploading" /\ version it = 1 /\ t' = <[item_key it := it]> t)
  \/ (requested_operation ev = Some (JStr "complete_upload")
      /\ exists k it, t !! k = Some it /\ t' = <[k := mark_completed it (now E)]> t).


(** The bearer token the handler extracts: [auth_header.split(' ')[1]]. *)
Definition header_token (auth_header : string) : string :=
  nth 1 (split_char " "%char auth_header) EmptyString.

(** The Authorization header of an event whose [headers] is an object,
    empty otherwise. *)
Definition auth_header_of (ev : event) : string :=
  match headers ev with
  | Some hs => default EmptyString (hs !! "Authorization")
  | None => EmptyString
  end.

(** A record as [store_file_metadata] creates it for [uid]. *)
Definition new_record (uid : string) (it : item) : Prop :=
  status it = "uploading" /\ version it = 1 /\ user_id it = uid
  /\ s3_key it = object_key (user_id it) (file_id it) (filename it).

(** Table changes of request-upload for the verified user [uid]. *)
Definition owner_upload_effect (uid : string) (t t' : files_table) : Prop :=
  t' = t \/ exists it, new_record uid it /\ t' = <[item_key it := it]> t.

(** Table changes of complete_upload for the verified user [uid]. *)
Definition owner_complete_effect (E : env) (uid : string) (t t' : files_table) : Prop :=
  t' = t \/ exists f it, t !! (f, uid) = Some it
                         /\ t' = <[(f, uid) := mark_completed it (now E)]> t.

(** Table changes of one request, tied to the user Cognito returned for
    the bearer token of the request. *)
Definition request_effect (E : env) (ev : event) (t t' : files_table) : Prop :=
  t' = t
  \/ (httpMethod ev <> Some "OPTIONS"
      /\ startswith "Bearer " (auth_header_of ev) = true
      /\ exists uid, cognito_verify E (header_token (auth_header_of ev)) = Some uid
                     /\ (owner_upload_effect uid t t' \/ owner_complete_effect E uid t t')).

(** Shape of every stored record. *)
Definition record_inv (t : files_table) : Prop :=
  forall k it, t !! k = Some it ->
    item_key it = k /\ version it = 1
    /\ s3_key it = object_key (user_id it) (file_id it) (filename it)
    /\ (status it = "uploading" \/ status it = "completed").

(** A response whose body is the one-field object [{key: msg}]. *)
Definition msg_response (code : Z) (key msg : string) : response :=
  create_response code (JObj [(key, JStr msg)]).

(** The body get_download_url answers for the record [it] read back from
    DynamoDB and the URL [url]. *)
Definition download_body (url : string) (it : item) : json :=
  JObj [("download_url", JStr url);
        ("file_info", JObj
           [("filename", JStr (filename it));
            ("file_type", JStr (file_type it));
            ("file_size", file_size it);
            ("title", title it);
            ("description", description it);
            ("tags", tags it)]);
        ("expires_in", JNum 3600)].

(** The alphabet of [hexdigest()]. *)
Definition hex_digits : string := "0123456789abcdef".

(* ================================================================== *)
(** * Properties *)

Example md5_abc : MD5.hexdigest "abc" = "900150983cd24fb0d6963f7d28e17f72".
Proof. vm_compute. reflexivity. Qed.

Example splitext_ex :
  splitext_ext "a/b.c/photo.JPG" = ".JPG" /\ splitext_ext ".jpg" = EmptyString
  /\ splitext_ext "x..jpg" = ".jpg" /\ splitext_ext "a.b/c" = EmptyString.
Proof. vm_compute. auto. Qed.

Example gen_ex :
  generate_file_id "u1" "photo.jpg" "2026-10-17T12:00:00.022053+00:00"
  = "u1_0f345508".
Proof. vm_compute. reflexivity. Qed.


(* ------------------------------------------------------------------ *)
(** ** Table effects of the monadic building blocks *)

(** Unfold the monad operations and reduce. *)
Ltac run_M :=
  unfold mbind, M_bind, mret, M_ret, log, get_table, put_table, raise, lift,
    try_catch, respond in *; simpl in *.

Section Effects.

Context {A B : Type}.
Context (R : files_table -> files_table -> Prop).
Hypothesis R_refl : forall t, R t t.

Lemma eff_mono (R' : files_table -> files_table -> Prop) (m : M A) :
  (forall t t', R t t' -> R' t t') -> eff R m -> eff R' m.
Proof. intros HR Hm w. apply HR, Hm. Qed.

Lemma ro_eff (m : M A) : ro m -> eff R m.
Proof. intros Hm w. rewrite (Hm w). apply R_refl. Qed.

Lemma eff_bind_ro_l (m : M A) (k : A -> M B) :
  ro m -> (forall a, eff R (k a)) -> eff R (mbind k m).
Proof.
  intros Hm Hk w. unfold mbind, M_bind.
  specialize (Hm w). destruct (m w) as [[a|e] w'] eqn:Em; simpl in *.
  - rewrite <- Hm. apply Hk.
  - rewrite Hm. apply R_refl.
Qed.

Lemma eff_bind_ro_r (m : M A) (k : A -> M B) :
  eff R m -> (forall a, ro (k a)) -> eff R (mbind k m).
Proof.
  intros Hm Hk w. unfold mbind, M_bind.
  specialize (Hm w). destruct (m w) as [[a|e] w'] eqn:Em; simpl in *.
  - rewrite (Hk a w'). exact Hm.
  - exact Hm.
Qed.

Lemma eff_try_ro_h (m : M A) (h : exn -> M A) :
  eff R m -> (forall e, ro (h e)) -> eff R (try_catch m h).
Proof.
  intros Hm Hh w. unfold try_catch.
  specialize (Hm w). destruct (m w) as [[a|e] w'] eqn:Em; simpl in *.
  - exact Hm.
  - rewrite (Hh e w'). exact Hm.
Qed.

Lemma eff_try_ro_m (m : M A) (h : exn -> M A) :
  ro m -> (forall e, eff R (h e)) -> eff R (try_catch m h).
Proof.
  intros Hm Hh w. unfold try_catch.
  specialize (Hm w). destruct (m w) as [[a|e] w'] eqn:Em; simpl in *.
  - rewrite Hm. apply R_refl.
  - rewrite <- Hm. apply Hh.
Qed.

End Effects.

Lemma ro_ret {A : Type} (a : A) : ro (mret a : M A).
Proof. intros w. reflexivity. Qed.

Lemma ro_raise {A : Type} (e : exn) : ro (@raise A e).
Proof. intros w. reflexivity. Qed.

Lemma ro_lift {A : Type} (o : outcome A) : ro (lift o).
Proof. destruct o; intros w; reflexivity. Qed.

Lemma ro_log (c : call) : ro (log c).
Proof. intros w. reflexivity. Qed.

Lemma ro_get_table : ro get_table.
Proof. intros w. reflexivity. Qed.

Lemma ro_bind {A B : Type} (m : M A) (k : A -> M B) :
  ro m -> (forall a, ro (k a)) -> ro (mbind k m).
Proof. intros. apply eff_bind_ro_l; auto. Qed.

Lemma ro_try {A : Type} (m : M A) (h : exn -> M A) :
  ro m -> (forall e, ro (h e)) -> ro (try_catch m h).
Proof. intros. apply eff_try_ro_h; auto. Qed.

Lemma ro_error_response (code : Z) (msg : string) : ro (error_response code msg).
Proof. intros w. reflexivity. Qed.

Lemma ro_verify_token (E : env) (tok : string) : ro (verify_token E tok).
Proof. intros w. reflexivity. Qed.

Lemma ro_create_signed_url (E : env) (f n u op : string) :
  ro (create_signed_url E f n u op).
Proof.
  unfold create_signed_url.
  destruct (String.eqb op "put_object"); intros w; reflexivity.
Qed.

Lemma ro_get_item (E : env) (k : string * string) : ro (get_item E k).
Proof. intros w. unfold get_item. destruct (ddb_error E); reflexivity. Qed.

Lemma ro_key_string (j : json) : ro (key_string j).
Proof.
  unfold key_string. destruct j; try (intros w; reflexivity);
    destruct (serialize_error _); intros w; reflexivity.
Qed.

Lemma ro_respond (code : Z) (b : json) : ro (respond code b).
Proof. unfold respond. destruct (dumpable b); intros w; reflexivity. Qed.

Lemma ro_as_dict (j : json) : ro (as_dict j).
Proof. destruct j; intros w; reflexivity. Qed.

Create HintDb effects.

#[export] Hint Resolve ro_ret ro_raise ro_lift ro_log ro_get_table ro_error_response
  ro_verify_token ro_create_signed_url ro_get_item ro_key_string ro_as_dict ro_respond : effects.

Lemma eff_put_item (E : env) (it : item) :
  eff (fun t t' => t' = t \/ t' = <[item_key it := it]> t) (put_item E it).
Proof.
  intros w. unfold put_item.
  destruct (item_serialize_error it), (ddb_error E), (ddb_rejects E it); run_M; auto.
Qed.

Lemma eff_update_item_complete (E : env) (k : string * string) :
  eff (fun t t' => t' = t \/ exists it, t !! k = Some it /\ t' = <[k := mark_completed it (now E)]> t)
      (update_item_complete E k).
Proof.
  intros w. unfold update_item_complete. destruct (ddb_error E); run_M; auto.
  destruct (table w !! k) as [it|] eqn:Hk; simpl; auto.
  destruct (String.eqb (user_id it) k.2); simpl; [right; exists it; auto | left; reflexivity].
Qed.

(** Effects of the operations. *)
Definition upload_effect (uid : string) (t t' : files_table) : Prop :=
  t' = t \/ exists it, status it = "uploading" /\ version it = 1 /\ (item_key it).2 = uid
                       /\ t' = <[item_key it := it]> t.

Definition complete_effect (E : env) (t t' : files_table) : Prop :=
  t' = t \/ exists k it, t !! k = Some it /\ t' = <[k := mark_completed it (now E)]> t.

Ltac bind_ro := eapply eff_bind_ro_l; [intros; left; reflexivity | auto with effects | intros ?].

Lemma eff_store_file_metadata (E : env) (fid uid fname : string) (fi md : json) :
  eff (upload_effect uid) (store_file_metadata E fid uid fname fi md).
Proof.
  unfold store_file_metadata. cbv zeta.
  eapply eff_try_ro_h; [| intros; apply ro_ret].
  bind_ro. bind_ro.
  eapply eff_bind_ro_r; [| intros; apply ro_ret].
  eapply eff_mono; [| apply eff_put_item].
  intros t t' [H|H]; [left; exact H | right].
  eexists; split; [| split; [| split; [| exact H]]]; reflexivity.
Qed.

Lemma eff_handle_get_upload_url (E : env) (bd : list (string * json)) (uid : string) :
  eff (upload_effect uid) (handle_get_upload_url E bd uid).
Proof.
  unfold handle_get_upload_url. cbv zeta.
  bind_ro. match goal with |- eff _ (match ?x with _ => _ end) => destruct x end.
  2: { apply ro_eff; [intros; left; reflexivity | auto with effects]. }
  bind_ro. bind_ro. bind_ro.
  match goal with |- eff _ (if ?c then _ else _) => destruct c end.
  { apply ro_eff; [intros; left; reflexivity | auto with effects]. }
  eapply eff_bind_ro_r; [apply eff_store_file_metadata |].
  intros b; destruct b; simpl; auto with effects.
Qed.

Lemma eff_handle_complete_upload (E : env) (bd : list (string * json)) (uid : string) :
  eff (complete_effect E) (handle_complete_upload E bd uid).
Proof.
  unfold handle_complete_upload. cbv zeta.
  match goal with |- eff _ (if ?c then _ else _) => destruct c end.
  { apply ro_eff; [intros; left; reflexivity | auto with effects]. }
  eapply eff_try_ro_h; [|].
  - bind_ro. eapply eff_bind_ro_r; [| intros; apply ro_ret].
    eapply eff_mono; [| apply eff_update_item_complete].
    intros t t' [H|[it [H1 H2]]]; [left; exact H | right; eauto].
  - intros e. destruct e; auto with effects.
    destruct (String.eqb code "ConditionalCheckFailedException"); auto with effects.
Qed.

Lemma ro_handle_get_download_url (E : env) (bd : list (string * json)) (uid : string) :
  ro (handle_get_download_url E bd uid).
Proof.
  unfold handle_get_download_url. cbv zeta.
  destruct (negb _); auto with effects.
  apply ro_try; [| auto with effects].
  apply ro_bind; [auto with effects | intros f].
  apply ro_bind; [auto with effects | intros [it|]]; [| auto with effects].
  apply ro_bind; [auto with effects | intros u].
  destruct (negb _); auto with effects.
Qed.

Lemma eff_bind_ret {A B : Type} (R : files_table -> files_table -> Prop) (a : A) (k : A -> M B) :
  eff R (k a) -> eff R (mbind k (mret a)).
Proof. intros H w. exact (H w). Qed.

Lemma json_is_true (j : json) (s : string) : json_is j s = true -> j = JStr s.
Proof.
  destruct j; simpl; try discriminate.
  intros H. apply String.eqb_eq in H. subst. reflexivity.
Qed.

Lemma eff_handler (E : env) (ev : event) : eff (handler_effect E ev) (handler E ev).
Proof.
  assert (Hrefl : forall t, handler_effect E ev t t) by (intros; left; reflexivity).
  unfold handler. cbv zeta.
  eapply eff_try_ro_h; [| intros; apply ro_error_response].
  destruct (decide _); [apply ro_eff; auto with effects |].
  destruct (headers ev) as [hs|]; [| apply ro_eff; auto with effects].
  destruct (negb _); [apply ro_eff; auto with effects |].
  eapply eff_bind_ro_l; [exact Hrefl | auto with effects | intros [uid|]];
    [| apply ro_eff; auto with effects].
  destruct (default (RawJSON (JObj [])) (ev_body ev)) as [j| |e|] eqn:Hb;
    [| apply ro_eff; auto with effects ..].
  destruct j as [| | | | |l| |]; try (apply ro_eff; [exact Hrefl | intros w; reflexivity]).
  apply eff_bind_ret.
  assert (Hop : requested_operation ev = Some (jget_default "operation" l (JStr "get_upload_url")))
    by (unfold requested_operation; rewrite Hb; reflexivity).
  destruct (json_is _ "get_upload_url") eqn:H1.
  { eapply eff_mono; [| apply eff_handle_get_upload_url].
    intros t t' [H|(it & H2 & H3 & _ & H4)]; [left; exact H |].
    right; left. split; [rewrite Hop; f_equal; apply json_is_true; exact H1 | eauto]. }
  destruct (json_is _ "complete_upload") eqn:H2.
  { eapply eff_mono; [| apply eff_handle_complete_upload].
    intros t t' [H|H]; [left; exact H |].
    right; right. split; [rewrite Hop; f_equal; apply json_is_true; exact H2 | exact H]. }
  destruct (json_is _ "get_download_url").
  { apply ro_eff; [exact Hrefl | apply ro_handle_get_download_url]. }
  apply ro_eff; auto with effects.
Qed.

Lemma handler_effect_wf (E : env) (ev : event) (t t' : files_table) :
  table_wf t -> handler_effect E ev t t' -> table_wf t'.
Proof.
  intros Hwf [->|[[_ (it & _ & _ & ->)]|[_ (k & it & Hk & ->)]]]; [exact Hwf | |];
    intros k' it' Hk'.
  - destruct (decide (item_key it = k')) as [<-|Hne].
    + rewrite lookup_insert_eq in Hk'. injection Hk' as <-. reflexivity.
    + rewrite lookup_insert_ne in Hk' by exact Hne. apply Hwf, Hk'.
  - destruct (decide (k = k')) as [<-|Hne].
    + rewrite lookup_insert_eq in Hk'. injection Hk' as <-. exact (Hwf k it Hk).
    + rewrite lookup_insert_ne in Hk' by exact Hne. apply Hwf, Hk'.
Qed.

Lemma reachable_wf (w : world) : reachable w -> table_wf (table w).
Proof.
  induction 1 as [|E ev w _ IH].
  - intros k it Hk. simpl in Hk. rewrite lookup_empty in Hk. discriminate.
  - apply (handler_effect_wf E ev (table w)); [exact IH | apply eff_handler].
Qed.

(* ------------------------------------------------------------------ *)
(** ** String lemmas *)

Lemma append_cancel_l (u x y : string) : u +:+ x = u +:+ y -> x = y.
Proof. induction u as [|c u IH]; simpl; [auto | intros H; injection H; auto]. Qed.

Lemma startswith_append (u x : string) : startswith u (u +:+ x) = true.
Proof.
  induction u as [|c u IH]; simpl; [destruct x; reflexivity |].
  rewrite Ascii.eqb_refl. exact IH.
Qed.

Lemma size_msg_ne_type_msg (ext : string) : size_msg <> type_msg ext.
Proof. unfold size_msg, type_msg. simpl. discriminate. Qed.

Lemma name_msg_ne_type_msg (ext : string) : name_msg <> type_msg ext.
Proof. unfold name_msg, type_msg. simpl. discriminate. Qed.

Lemma name_msg_ne_size_msg : name_msg <> size_msg.
Proof. discriminate. Qed.

(* ------------------------------------------------------------------ *)
(** ** C5: file identifiers *)

(** C5 (counterexample): two different instants [t1 <> t2] give the same
    file id for owner [u1] and name [photo.jpg], since only the first
    eight hex digits of the MD5 digest are kept; the docstring of
    [generate_file_id] ("Generate unique file ID") and the project's unit
    test [test_generate_file_id_unique] both expect different ids. *)
Lemma C5_counterexample :
  t1 <> t2 /\ generate_file_id "u1" "photo.jpg" t1 = generate_file_id "u1" "photo.jpg" t2.
Proof. split; [unfold t1, t2; discriminate | vm_compute; reflexivity]. Qed.

(** Every generated file id starts with the owner id, and the ids
    generated at two instants coincide exactly when the first eight hex
    digits of the MD5 digests of owner, name and timestamp coincide. *)
Theorem generate_file_id_prefix (user_id0 name ts ts' : string) :
  startswith user_id0 (generate_file_id user_id0 name ts) = true
  /\ (generate_file_id user_id0 name ts = generate_file_id user_id0 name ts'
      <-> substring 0 8 (MD5.hexdigest (user_id0 +:+ name +:+ ts))
          = substring 0 8 (MD5.hexdigest (user_id0 +:+ name +:+ ts'))).
Proof.
  unfold generate_file_id. split; [apply startswith_append |].
  split.
  - intros H. apply append_cancel_l in H. simpl in H. injection H as H. exact H.
  - intros ->. reflexivity.
Qed.

(* ------------------------------------------------------------------ *)
(** ** C6, C7: [validate_file] *)

(** C6: a declared size above [MAX_FILE_SIZE] always yields the size
    violation; a size within the limit together with an allowed extension
    yields neither a size nor a type violation. *)
Theorem C6_validate_size_and_type (fi : list (string * json)) (name : string) (size : Z)
    (Hname : jget "name" fi = Some (JStr name)) (Hsize : jget "size" fi = Some (JNum size)) :
  (MAX_FILE_SIZE < size ->
     exists errs, validate_file (JObj fi) = Ok errs /\ In size_msg errs)
  /\ (size <= MAX_FILE_SIZE ->
      mem_string (lower (splitext_ext name)) allowed_extensions = true ->
      exists errs, validate_file (JObj fi) = Ok errs /\ ~ In size_msg errs
                   /\ forall ext, ~ In (type_msg ext) errs).
Proof.
  unfold validate_file, jget_default. rewrite Hsize, Hname. unfold size_exceeds, as_str.
  split.
  - intros Hgt. assert (Hb : (size >? MAX_FILE_SIZE) = true) by (apply Z.gtb_lt; lia).
    rewrite Hb. eexists; split; [reflexivity |]. left; reflexivity.
  - intros Hle Hmem. assert (Hb : (size >? MAX_FILE_SIZE) = false) by (rewrite Z.gtb_ltb; apply Z.ltb_ge; lia).
    rewrite Hb, Hmem. eexists; split; [reflexivity |]. simpl.
    destruct (_ || _); simpl.
    + split; [intros [H|[]]; exact (name_msg_ne_size_msg H) |].
      intros ext [H|[]]. exact (name_msg_ne_type_msg ext H).
    + split; [intros [] | intros ext []].
Qed.

Lemma C6_validate_size_and_type_witness :
  (MAX_FILE_SIZE < 1024 ->
     exists errs, validate_file (JObj [("name", JStr "photo.jpg"); ("size", JNum 1024)]) = Ok errs
                  /\ In size_msg errs)
  /\ (1024 <= MAX_FILE_SIZE ->
      mem_string (lower (splitext_ext "photo.jpg")) allowed_extensions = true ->
      exists errs, validate_file (JObj [("name", JStr "photo.jpg"); ("size", JNum 1024)]) = Ok errs
                   /\ ~ In size_msg errs /\ forall ext, ~ In (type_msg ext) errs).
Proof. apply C6_validate_size_and_type; reflexivity. Defined.

(** C7: the three rules of [validate_file] are evaluated independently and
    the result is the concatenation of the violations they trigger; in
    particular an extension outside the allow-list yields the type
    violation whatever the (comparable) declared size. *)
Theorem C7_validate_union (fi : list (string * json)) (name : string) (big : bool)
    (Hname : jget "name" fi = Some (JStr name))
    (Hsize : size_exceeds (jget_default "size" fi (JNum 0)) = Ok big) :
  let ext := lower (splitext_ext name) in
  validate_file (JObj fi)
  = Ok ((if big then [size_msg] else [])
        ++ (if mem_string ext allowed_extensions then [] else [type_msg ext])
        ++ (if String.eqb name EmptyString || (255 <? String.length name)%nat
            then [name_msg] else []))
  /\ (mem_string ext allowed_extensions = false ->
      forall errs, validate_file (JObj fi) = Ok errs -> In (type_msg ext) errs).
Proof.
  cbv zeta.
  assert (Hv : validate_file (JObj fi)
    = Ok ((if big then [size_msg] else [])
        ++ (if mem_string (lower (splitext_ext name)) allowed_extensions then []
            else [type_msg (lower (splitext_ext name))])
        ++ (if String.eqb name EmptyString || (255 <? String.length name)%nat
            then [name_msg] else []))).
  { unfold validate_file. rewrite Hsize. unfold jget_default at 1. rewrite Hname.
    cbn [as_str]. f_equal. symmetry. apply app_assoc. }
  split; [exact Hv |].
  intros Hmem. rewrite Hmem in Hv. intros errs Herrs. rewrite Hv in Herrs.
  injection Herrs as <-.
  apply in_or_app; right. left; reflexivity.
Qed.

Lemma C7_validate_union_witness :
  let ext := lower (splitext_ext "virus.EXE") in
  validate_file (JObj [("name", JStr "virus.EXE"); ("size", JNum 10)])
  = Ok ((if false then [size_msg] else [])
        ++ (if mem_string ext allowed_extensions then [] else [type_msg ext])
        ++ (if String.eqb "virus.EXE" EmptyString || (255 <? String.length "virus.EXE")%nat
            then [name_msg] else []))
  /\ (mem_string ext allowed_extensions = false ->
      forall errs, validate_file (JObj [("name", JStr "virus.EXE"); ("size", JNum 10)]) = Ok errs
                   -> In (type_msg ext) errs).
Proof. apply C7_validate_union; reflexivity. Defined.

(* ------------------------------------------------------------------ *)
(** ** C8, C9, C10: the request handler *)

Definition options_event : event := {|
  httpMethod := Some "OPTIONS";
  headers := Some ∅;
  ev_body := None |}.

(** C9 (counterexample): the OPTIONS preflight is answered with status 200
    but with the body [{"message": "OK"}], not without a body. *)
Lemma C9_counterexample :
  match fst (handler (env_at t1) options_event world0) with
  | Ok r => statusCode r = 200 /\ body r <> JNull /\ body r <> JObj []
  | Raise _ => False
  end.
Proof. vm_compute. split; [reflexivity | split; discriminate]. Qed.

(** C9 (amended): every OPTIONS request, whatever its headers and body, is
    answered with status 200 and body [{"message": "OK"}], leaving the
    table and the call log unchanged. *)
Theorem C9_options_answered (E : env) (ev : event) (w : world)
    (Hm : httpMethod ev = Some "OPTIONS") :
  handler E ev w = (Ok (create_response 200 (JObj [("message", JStr "OK")])), w).
Proof.
  unfold handler, try_catch. destruct (decide _) as [_|Hn]; [reflexivity | contradiction].
Qed.

Lemma C9_options_answered_witness :
  httpMethod options_event = Some "OPTIONS"
  /\ handler (env_at t1) options_event world0
     = (Ok (create_response 200 (JObj [("message", JStr "OK")])), world0).
Proof.
  split; [reflexivity |]. apply C9_options_answered. reflexivity.
Defined.





(** C10: an authenticated non-OPTIONS request whose JSON body has no
    [operation] field is dispatched to [handle_get_upload_url]. *)
Theorem C10_default_operation (E : env) (ev : event) (w : world)
    (bd : list (string * json)) (uid : string)
    (Hm : httpMethod ev <> Some "OPTIONS")
    (Hauth : startswith "Bearer " (auth_header_of ev) = true)
    (Huid : cognito_verify E (header_token (auth_header_of ev)) = Some uid)
    (Hbody : default (RawJSON (JObj [])) (ev_body ev) = RawJSON (JObj bd))
    (Hop : jget "operation" bd = None) :
  handler E ev w
  = try_catch (handle_get_upload_url E bd uid)
      (fun _ => error_response 500 "Internal server error")
      {| table := table w; calls := calls w ++ [CVerify (header_token (auth_header_of ev))] |}.
Proof.
  unfold auth_header_of, header_token in *.
  unfold handler. cbv zeta.
  destruct (decide _) as [Heq|_]; [contradiction |].
  destruct (headers ev) as [hs|]; [| discriminate Hauth].
  rewrite Hauth. unfold verify_token. unfold negb.
  unfold try_catch at 1. unfold mbind at 1, M_bind at 1.
  unfold mbind at 1, M_bind at 1. unfold log at 1. simpl.
  rewrite Huid, Hbody. unfold as_dict, mbind, M_bind, mret, M_ret. cbv beta iota.
  unfold jget_default. rewrite Hop. reflexivity.
Qed.

Lemma C10_default_operation_witness :
  let ev := post "Bearer tok_u1" [("file_info", JObj [("name", JStr "a.png"); ("size", JNum 5)])] in
  handler (env_at t1) ev world0
  = try_catch (handle_get_upload_url (env_at t1)
                 [("file_info", JObj [("name", JStr "a.png"); ("size", JNum 5)])] "u1")
      (fun _ => error_response 500 "Internal server error")
      {| table := table world0; calls := calls world0 ++ [CVerify (header_token (auth_header_of ev))] |}.
Proof.
  cbv zeta. apply C10_default_operation; [discriminate | reflexivity | reflexivity | reflexivity | reflexivity].
Defined.

(* ------------------------------------------------------------------ *)
(** ** C1, C2: creation and status of records *)

Definition k_u1 : string * string := ("u1_0f345508", "u1").

Definition upload_t2_event : event :=
  post "Bearer tok_u1" (upload_body "photo.jpg" 2048 "second").

(** C1 (counterexample): after a first request-upload by [u1] at [t1]
    created the record [("u1_0f345508", "u1")] titled "first", a second
    request-upload at [t2] generates the same key, succeeds with 200 and
    replaces the record (its title becomes "second"). *)
Lemma C1_counterexample :
  (title <$> table w1 !! k_u1) = Some (JStr "first")
  /\ match fst (handler (env_at t2) upload_t2_event w1) with
     | Ok r => statusCode r = 200
     | Raise _ => False
     end
  /\ (title <$> table (step (env_at t2) upload_t2_event w1) !! k_u1) = Some (JStr "second").
Proof. vm_compute. split; [reflexivity | split; reflexivity]. Qed.

(** C1 (amended): [store_file_metadata] writes the new item with an
    unconditional [put_item].  When [file_info] and [metadata] are dicts it
    builds an item [it] at [(file_id, user_id)], in state "uploading" with
    version 1 and the size, type, title, description and tags read from
    them; if boto3 serializes [it] and DynamoDB neither fails nor refuses
    it, the call returns true and the record at [(file_id, user_id)] is
    afterwards [it], whether or not a record existed there (a second create
    overwrites the first); otherwise it returns false with the table
    unchanged.  When [file_info] or [metadata] is not a dict it returns
    false without calling DynamoDB. *)
Theorem C1_create_unconditional (E : env) (w : world) (fid uid fname : string)
    (fi md : json) :
  (forall fi' md', fi = JObj fi' -> md = JObj md' ->
   exists it, item_key it = (fid, uid) /\ status it = "uploading" /\ version it = 1
     /\ file_size it = jget_default "size" fi' (JNum 0)
     /\ content_type it = jget_default "type" fi' (JStr "application/octet-stream")
     /\ title it = jget_default "title" md' (JStr fname)
     /\ description it = jget_default "description" md' (JStr EmptyString)
     /\ tags it = jget_default "tags" md' (JArr [])
     /\ (item_serialize_error it = None -> ddb_error E = None -> ddb_rejects E it = None ->
         store_file_metadata E fid uid fname fi md w
         = (Ok true, {| table := <[(fid, uid) := it]> (table w);
                        calls := calls w ++ [CPutItem (fid, uid)] |}))
     /\ (item_serialize_error it <> None \/ ddb_error E <> None \/ ddb_rejects E it <> None ->
         store_file_metadata E fid uid fname fi md w
         = (Ok false, {| table := table w; calls := calls w ++ [CPutItem (fid, uid)] |})))
  /\ ((forall fi', fi <> JObj fi') \/ (forall md', md <> JObj md') ->
      store_file_metadata E fid uid fname fi md w = (Ok false, w)).
Proof.
  split.
  - intros fi' md' -> ->.
    unfold store_file_metadata, as_dict. cbv zeta.
    unfold try_catch, mbind, M_bind, mret, M_ret. cbv beta iota.
    match goal with |- context [put_item E ?it] => exists it end.
    do 8 (split; [reflexivity |]).
    unfold put_item. run_M. split.
    + intros Hs Hd Hr. rewrite Hs, Hd, Hr. reflexivity.
    + intros [Hs|[Hd|Hr]].
      * destruct (item_serialize_error _); [reflexivity | contradiction].
      * destruct (item_serialize_error _); [reflexivity |].
        destruct (ddb_error E); [reflexivity | contradiction].
      * destruct (item_serialize_error _); [reflexivity |].
        destruct (ddb_error E); [reflexivity |].
        destruct (ddb_rejects E _); [reflexivity | contradiction].
  - unfold store_file_metadata, as_dict. intros [H|H].
    + destruct fi; try (run_M; reflexivity). exfalso; eapply H; reflexivity.
    + destruct fi; try (run_M; reflexivity).
      destruct md; try (run_M; reflexivity). exfalso; eapply H; reflexivity.
Qed.

Lemma C1_create_unconditional_witness :
  (exists it, item_key it = k_u1 /\ title it = JStr "second"
     /\ store_file_metadata (env_at t2) k_u1.1 k_u1.2 "photo.jpg"
          (JObj [("size", JNum 2048)]) (JObj [("title", JStr "second")]) w2
        = (Ok true, {| table := <[k_u1 := it]> (table w2);
                       calls := calls w2 ++ [CPutItem k_u1] |}))
  /\ store_file_metadata (env_at t2) k_u1.1 k_u1.2 "photo.jpg" (JStr "x") (JObj []) w2
     = (Ok false, w2).
Proof.
  split.
  - destruct (proj1 (C1_create_unconditional (env_at t2) w2 k_u1.1 k_u1.2 "photo.jpg"
                       (JObj [("size", JNum 2048)]) (JObj [("title", JStr "second")]))
                _ _ eq_refl eq_refl)
      as (it & Hk & _ & _ & Hfs & Hct & Hti & Hde & Hta & Hok & _).
    exists it. split; [exact Hk | split; [rewrite Hti; reflexivity |]].
    apply Hok; [| reflexivity | reflexivity].
    unfold item_serialize_error, item_values. rewrite Hfs, Hct, Hti, Hde, Hta.
    vm_compute. reflexivity.
  - apply (proj2 (C1_create_unconditional (env_at t2) w2 k_u1.1 k_u1.2 "photo.jpg"
                    (JStr "x") (JObj []))).
    left. intros fi' Hf. discriminate Hf.
Defined.

(** C2 (counterexample): in the reachable state [w2] the record of [u1]
    has been completed; the next request-upload (at [t2], which repeats
    the file id) sets its status back to "uploading". *)
Lemma C2_counterexample :
  reachable w2
  /\ status_at w2 k_u1 = Some "completed"
  /\ status_at (step (env_at t2) upload_t2_event w2) k_u1 = Some "uploading".
Proof.
  split; [unfold w2, w1; apply reach_step, reach_step, reach_init |].
  vm_compute. split; reflexivity.
Qed.

(* ------------------------------------------------------------------ *)
(** ** C3: records are only read under their owner *)

Lemma truthy_JStr (s : string) : s <> EmptyString -> truthy (JStr s) = true.
Proof.
  intros Hs. simpl. destruct (String.eqb s EmptyString) eqn:H; [| reflexivity].
  apply String.eqb_eq in H. contradiction.
Qed.

(** The download operation when the caller's key holds no record. *)
Lemma download_missing (E : env) (bd : list (string * json)) (uid fid : string) (w : world)
    (Hfid : jget_default "file_id" bd JNull = JStr fid) (Hne : fid <> EmptyString)
    (Hddb : ddb_error E = None) (Hnone : table w !! (fid, uid) = None) :
  fst (handle_get_download_url E bd uid w)
  = Ok (create_response 404 (JObj [("error", JStr "File not found")])).
Proof.
  unfold handle_get_download_url. cbv zeta. rewrite Hfid, (truthy_JStr fid Hne).
  unfold key_string, get_item. run_M. rewrite Hddb. simpl. rewrite Hnone. reflexivity.
Qed.

Definition owner_b_only : world :=
  step (env_at t1) (post "Bearer tok_u2" (upload_body "photo.jpg" 1024 "b")) world0.

(** C3: in every reachable state, for distinct owners [a] and [b], a get
    issued under [a] never returns a record of [b]; a request-download
    under [a] for a file id with no record of [a] (in particular one only
    [b] owns) is rejected with 404 "File not found"; and a successful
    request-download under [a] serves a record owned by [a]. *)
Theorem C3_owner_isolation (E : env) (w : world) (a b fid : string)
    (bd : list (string * json))
    (Hreach : reachable w) (Hab : a <> b)
    (Hfid : jget_default "file_id" bd JNull = JStr fid) (Hne : fid <> EmptyString)
    (Hddb : ddb_error E = None) :
  (forall it w', get_item E (fid, a) w = (Ok (Some it), w') -> user_id it <> b)
  /\ (table w !! (fid, a) = None ->
      fst (handle_get_download_url E bd a w)
      = Ok (create_response 404 (JObj [("error", JStr "File not found")])))
  /\ (forall r w', handle_get_download_url E bd a w = (Ok r, w') -> statusCode r = 200 ->
      exists it, table w !! (fid, a) = Some it /\ user_id it = a).
Proof.
  pose proof (reachable_wf w Hreach) as Hwf.
  split; [| split].
  - intros it w' Hget. unfold get_item in Hget. run_M. rewrite Hddb in Hget.
    injection Hget as Hit _.
    destruct (table w !! (fid, a)) as [it0|] eqn:Hx; [| discriminate Hit].
    injection Hit as <-. simpl.
    apply Hwf in Hx. unfold item_key in Hx. injection Hx as _ ->. exact Hab.
  - apply download_missing; assumption.
  - intros r w' Hrun H200.
    destruct (table w !! (fid, a)) as [it|] eqn:Hit.
    + exists it. split; [reflexivity |].
      apply Hwf in Hit. unfold item_key in Hit. injection Hit as _ ->. reflexivity.
    + pose proof (download_missing E bd a fid w Hfid Hne Hddb Hit) as H404.
      rewrite Hrun in H404. simpl in H404. injection H404 as ->. simpl in H200. discriminate.
Qed.

Lemma C3_owner_isolation_witness :
  table owner_b_only !! ("u2_8e1f3d6d", "u2") <> None
  /\ ((forall it w', get_item (env_at t1) ("u2_8e1f3d6d", "u1") owner_b_only = (Ok (Some it), w')
                     -> user_id it <> "u2")
      /\ (table owner_b_only !! ("u2_8e1f3d6d", "u1") = None ->
          fst (handle_get_download_url (env_at t1) [("file_id", JStr "u2_8e1f3d6d")] "u1" owner_b_only)
          = Ok (create_response 404 (JObj [("error", JStr "File not found")])))
      /\ (forall r w', handle_get_download_url (env_at t1) [("file_id", JStr "u2_8e1f3d6d")] "u1"
                         owner_b_only = (Ok r, w') -> statusCode r = 200 ->
          exists it, table owner_b_only !! ("u2_8e1f3d6d", "u1") = Some it /\ user_id it = "u1")).
Proof.
  split; [vm_compute; discriminate |].
  apply C3_owner_isolation.
  - unfold owner_b_only. apply reach_step, reach_init.
  - discriminate.
  - reflexivity.
  - discriminate.
  - reflexivity.
Defined.

(* ------------------------------------------------------------------ *)
(** ** C4: request-upload reports success only with a URL and a record *)

(** A list of messages is always serializable by [json.dumps]. *)
Lemma dumpable_strings (l : list string) : forallb dumpable (map JStr l) = true.
Proof. induction l as [|x l IH]; simpl; [reflexivity | exact IH]. Qed.

(** Closes a leaf of [handle_get_upload_url] that returns without a
    successful response and leaves the table as it was. *)
Ltac c4_fail Hrun :=
  injection Hrun as <- <-;
  split; [|split];
  [ intros _; split; [reflexivity|]
  | intros ? _; split; [reflexivity|]
  | ];
  intros r Hr; try intros H200;
  first [ discriminate Hr | injection Hr as <-; simpl in *; discriminate ].

(** C4: for one run of request-upload: if the URL issuer fails on every
    input, or DynamoDB fails, the table is unchanged and the response is
    not a 200; a 200 response carries a non-empty URL that the issuer
    returned for the object key, and the record at (file_id, user_id) has
    been written in state "uploading", after exactly one presign call and
    one put_item call. *)
Theorem C4_upload_outcomes (E : env) (bd : list (string * json)) (uid : string)
    (w w' : world) (o : outcome response)
    (Hrun : handle_get_upload_url E bd uid w = (o, w')) :
  ((forall m k ct, opt_truthy (s3_presign E m k ct) = false) ->
   table w' = table w /\ forall r, o = Ok r -> statusCode r <> 200)
  /\ (forall code, ddb_error E = Some code ->
      table w' = table w /\ forall r, o = Ok r -> statusCode r <> 200)
  /\ (forall r, o = Ok r -> statusCode r = 200 ->
      exists fid key ct url it,
        s3_presign E "put_object" key (Some ct) = Some url /\ url <> EmptyString
        /\ body r = JObj [("upload_url", JStr url); ("file_id", JStr fid);
                          ("expires_in", JNum 3600)]
        /\ item_key it = (fid, uid) /\ status it = "uploading"
        /\ table w' = <[(fid, uid) := it]> (table w)
        /\ calls w' = calls w ++ [CPresign "put_object" key; CPutItem (fid, uid)]).
Proof.
  unfold handle_get_upload_url, store_file_metadata, put_item, create_signed_url,
    error_response in Hrun.
  cbv zeta in Hrun. run_M.
  destruct (validate_file _) as [errs|e] eqn:Hv; simpl in Hrun; [| c4_fail Hrun].
  destruct errs as [|e0 errs]; simpl in Hrun;
    [| rewrite dumpable_strings in Hrun; simpl in Hrun; c4_fail Hrun].
  destruct (jget_default "file_info" bd (JObj [])) as [| | | | |fi| |] eqn:Hfi;
    simpl in Hrun; try c4_fail Hrun.
  destruct (as_str _) as [fname|e] eqn:Hname; simpl in Hrun; [| c4_fail Hrun].
  match type of Hrun with context [opt_truthy (s3_presign E ?m ?k ?c)] =>
    destruct (s3_presign E m k c) as [url|] eqn:Hu end; simpl in Hrun; [| c4_fail Hrun].
  destruct (String.eqb url EmptyString) eqn:Hempty; simpl in Hrun; [c4_fail Hrun |].
  destruct (jget_default "metadata" bd (JObj [])) as [| | | | |md| |] eqn:Hmd;
    simpl in Hrun; try c4_fail Hrun.
  destruct (item_serialize_error _) eqn:Hse; simpl in Hrun; [c4_fail Hrun |].
  destruct (ddb_error E) as [code|] eqn:Hddb; simpl in Hrun; [c4_fail Hrun |].
  destruct (ddb_rejects E _) eqn:Hrej; simpl in Hrun; [c4_fail Hrun |].
  injection Hrun as <- <-. simpl.
  split; [| split].
  - intros Hall.
    match type of Hu with s3_presign E ?m ?k ?c = _ =>
      specialize (Hall m k c) end.
    rewrite Hu in Hall. simpl in Hall. rewrite Hempty in Hall. discriminate.
  - intros code Hc. congruence.
  - intros r Hr _. injection Hr as <-.
    eexists _, _, _, url, _.
    split; [exact Hu |]. split; [apply String.eqb_neq; exact Hempty |].
    split; [reflexivity |].
    refine (conj _ (conj _ (conj eq_refl _))); [reflexivity | reflexivity |].
    rewrite <- app_assoc. reflexivity.
Qed.

Lemma C4_upload_outcomes_witness :
  let run := handle_get_upload_url (env_at t1) (upload_body "photo.jpg" 1024 "first") "u1" world0 in
  (exists r, fst run = Ok r /\ statusCode r = 200)
  /\ ((forall m k ct, opt_truthy (s3_presign (env_at t1) m k ct) = false) ->
      table (snd run) = table world0 /\ forall r, fst run = Ok r -> statusCode r <> 200)
  /\ (forall code, ddb_error (env_at t1) = Some code ->
      table (snd run) = table world0 /\ forall r, fst run = Ok r -> statusCode r <> 200)
  /\ (forall r, fst run = Ok r -> statusCode r = 200 ->
      exists fid key ct url it,
        s3_presign (env_at t1) "put_object" key (Some ct) = Some url /\ url <> EmptyString
        /\ body r = JObj [("upload_url", JStr url); ("file_id", JStr fid);
                          ("expires_in", JNum 3600)]
        /\ item_key it = (fid, "u1") /\ status it = "uploading"
        /\ table (snd run) = <[(fid, "u1") := it]> (table world0)
        /\ calls (snd run) = calls world0 ++ [CPresign "put_object" key; CPutItem (fid, "u1")]).
Proof.
  intros run. split.
  - eexists. split; [vm_compute; reflexivity | reflexivity].
  - exact (C4_upload_outcomes (env_at t1) (upload_body "photo.jpg" 1024 "first") "u1"
             world0 (snd run) (fst run) (surjective_pairing _)).
Defined.

(* ================================================================== *)
(** * Further properties of upload.py *)

(* ------------------------------------------------------------------ *)
(** ** Whose records a request may change *)

Lemma eff_store_owner (E : env) (fid uid fname : string) (fi md : json) :
  eff (owner_upload_effect uid) (store_file_metadata E fid uid fname fi md).
Proof.
  unfold store_file_metadata. cbv zeta.
  eapply eff_try_ro_h; [| intros; apply ro_ret].
  bind_ro. bind_ro.
  eapply eff_bind_ro_r; [| intros; apply ro_ret].
  eapply eff_mono; [| apply eff_put_item].
  intros t t' [H|H]; [left; exact H | right].
  eexists; split; [| exact H]. repeat split.
Qed.

Lemma eff_upload_owner (E : env) (bd : list (string * json)) (uid : string) :
  eff (owner_upload_effect uid) (handle_get_upload_url E bd uid).
Proof.
  unfold handle_get_upload_url. cbv zeta.
  bind_ro. match goal with |- eff _ (match ?x with _ => _ end) => destruct x end.
  2: { apply ro_eff; [intros; left; reflexivity | auto with effects]. }
  bind_ro. bind_ro. bind_ro.
  match goal with |- eff _ (if ?c then _ else _) => destruct c end.
  { apply ro_eff; [intros; left; reflexivity | auto with effects]. }
  eapply eff_bind_ro_r; [apply eff_store_owner |].
  intros b; destruct b; simpl; auto with effects.
Qed.

Lemma eff_complete_owner (E : env) (bd : list (string * json)) (uid : string) :
  eff (owner_complete_effect E uid) (handle_complete_upload E bd uid).
Proof.
  unfold handle_complete_upload. cbv zeta.
  match goal with |- eff _ (if ?c then _ else _) => destruct c end.
  { apply ro_eff; [intros; left; reflexivity | auto with effects]. }
  eapply eff_try_ro_h; [|].
  - bind_ro. rename a into f. eapply eff_bind_ro_r; [| intros; apply ro_ret].
    eapply eff_mono; [| apply (eff_update_item_complete E (f, uid))].
    intros t t' [H|[it [H1 H2]]]; [left; exact H | right; eauto].
  - intros e. destruct e; auto with effects.
    destruct (String.eqb code "ConditionalCheckFailedException"); auto with effects.
Qed.

Lemma eff_bind_verify {B : Type} (R : files_table -> files_table -> Prop)
    (E : env) (tok : string) (k : option string -> M B) :
  (forall u, cognito_verify E tok = u -> eff R (k u)) -> eff R (mbind k (verify_token E tok)).
Proof.
  intros Hk w. unfold verify_token. run_M.
  exact (Hk _ eq_refl {| table := table w; calls := calls w ++ [CVerify tok] |}).
Qed.

Lemma eff_handler_owner (E : env) (ev : event) : eff (request_effect E ev) (handler E ev).
Proof.
  assert (Hrefl : forall t, request_effect E ev t t) by (intros; left; reflexivity).
  unfold handler. cbv zeta.
  eapply eff_try_ro_h; [| intros; apply ro_error_response].
  destruct (decide _) as [_|Hopt]; [apply ro_eff; auto with effects |].
  destruct (headers ev) as [hs|] eqn:Hh; [| apply ro_eff; auto with effects].
  assert (Ha : auth_header_of ev = default EmptyString (hs !! "Authorization"))
    by (unfold auth_header_of; rewrite Hh; reflexivity).
  destruct (negb _) eqn:Hs; [apply ro_eff; auto with effects |].
  apply negb_false_iff in Hs. rewrite <- Ha in Hs.
  apply eff_bind_verify. intros [uid|] Hv; [| apply ro_eff; auto with effects].
  rewrite <- Ha in Hv. fold (header_token (auth_header_of ev)) in Hv.
  destruct (default (RawJSON (JObj [])) (ev_body ev)) as [j| |e|];
    [| apply ro_eff; auto with effects ..].
  destruct j as [| | | | |l| |]; try (apply ro_eff; [exact Hrefl | intros w; reflexivity]).
  apply eff_bind_ret.
  destruct (json_is _ "get_upload_url").
  { eapply eff_mono; [| apply eff_upload_owner].
    intros t t' [H|H]; [left; exact H |].
    right. split; [exact Hopt | split; [exact Hs | exists uid; split; [exact Hv | left; right; exact H]]]. }
  destruct (json_is _ "complete_upload").
  { eapply eff_mono; [| apply eff_complete_owner].
    intros t t' [H|H]; [left; exact H |].
    right. split; [exact Hopt | split; [exact Hs | exists uid; split; [exact Hv | right; right; exact H]]]. }
  destruct (json_is _ "get_download_url").
  { apply ro_eff; [exact Hrefl | apply ro_handle_get_download_url]. }
  apply ro_eff; auto with effects.
Qed.

(** X1: a request changes the record at a key [(file_id, user_id)] only
    if it is a non-OPTIONS request with a [Bearer ] header whose token
    Cognito accepts for exactly that [user_id]. *)
Theorem handler_writes_only_caller_records (E : env) (ev : event) (w : world)
    (k : string * string)
    (Hchg : table (step E ev w) !! k <> table w !! k) :
  httpMethod ev <> Some "OPTIONS"
  /\ startswith "Bearer " (auth_header_of ev) = true
  /\ cognito_verify E (header_token (auth_header_of ev)) = Some k.2.
Proof.
  pose proof (eff_handler_owner E ev w) as Heff. unfold step in Hchg.
  destruct Heff as [Ht|(Hm & Hs & uid & Hv & [[Ht|(it & Hnew & Ht)]|[Ht|(f & it & _ & Ht)]])];
    rewrite Ht in Hchg; try (exfalso; apply Hchg; reflexivity);
    (split; [exact Hm | split; [exact Hs | rewrite Hv; f_equal]]).
  - destruct (decide (item_key it = k)) as [<-|Hne].
    + destruct Hnew as (_ & _ & Hu & _). simpl. symmetry. exact Hu.
    + rewrite lookup_insert_ne in Hchg by exact Hne. exfalso; apply Hchg; reflexivity.
  - destruct (decide ((f, uid) = k)) as [<-|Hne]; [reflexivity |].
    rewrite lookup_insert_ne in Hchg by exact Hne. exfalso; apply Hchg; reflexivity.
Qed.

Lemma handler_writes_only_caller_records_witness :
  let ev := post "Bearer tok_u1" (upload_body "photo.jpg" 1024 "first") in
  table (step (env_at t1) ev world0) !! k_u1 <> table world0 !! k_u1
  /\ httpMethod ev <> Some "OPTIONS"
  /\ startswith "Bearer " (auth_header_of ev) = true
  /\ cognito_verify (env_at t1) (header_token (auth_header_of ev)) = Some k_u1.2.
Proof.
  cbv zeta. assert (H : table (step (env_at t1) (post "Bearer tok_u1" (upload_body "photo.jpg" 1024 "first")) world0) !! k_u1 <> table world0 !! k_u1)
    by (vm_compute; discriminate).
  split; [exact H | exact (handler_writes_only_caller_records _ _ _ _ H)].
Defined.

(** X2: in every state reachable from the empty table, each record is
    stored under its own [(file_id, user_id)], has version 1, has the S3
    key [uploads/<user_id>/<file_id>/<filename>], and its status is
    "uploading" or "completed". *)
Theorem reachable_record_inv (w : world) (Hr : reachable w) : record_inv (table w).
Proof.
  induction Hr as [|E ev w _ IH].
  - intros k it Hk. simpl in Hk. rewrite lookup_empty in Hk. discriminate.
  - pose proof (eff_handler_owner E ev w) as Heff. unfold step.
    destruct Heff as [Ht|(_ & _ & uid & _ & [[Ht|(it & Hnew & Ht)]|[Ht|(f & it & Hf & Ht)]])];
      rewrite Ht; try exact IH; intros k it' Hk.
    + destruct (decide (item_key it = k)) as [<-|Hne].
      * rewrite lookup_insert_eq in Hk. injection Hk as <-.
        destruct Hnew as (Hs & Hv & _ & Hk3). auto.
      * rewrite lookup_insert_ne in Hk by exact Hne. exact (IH k it' Hk).
    + destruct (decide ((f, uid) = k)) as [<-|Hne].
      * rewrite lookup_insert_eq in Hk. injection Hk as <-.
        destruct (IH _ _ Hf) as (Hk' & Hv & Hs3 & _). auto.
      * rewrite lookup_insert_ne in Hk by exact Hne. exact (IH k it' Hk).
Qed.

Lemma reachable_record_inv_witness : reachable w2 /\ record_inv (table w2).
Proof.
  assert (H : reachable w2) by (unfold w2, w1; apply reach_step, reach_step, reach_init).
  split; [exact H | exact (reachable_record_inv w2 H)].
Defined.

(** X3: a request leaves the table unchanged when it is an OPTIONS
    preflight, when its Authorization header (or its [headers]) is missing
    or does not start with [Bearer ], when Cognito rejects its token, or
    when its operation is neither "get_upload_url" nor "complete_upload"
    (get_download_url, an unknown operation, a body that is not a JSON
    object). *)
Theorem handler_read_only_ops (E : env) (ev : event) (w : world)
    (H : httpMethod ev = Some "OPTIONS"
         \/ startswith "Bearer " (auth_header_of ev) = false
         \/ cognito_verify E (header_token (auth_header_of ev)) = None
         \/ (requested_operation ev <> Some (JStr "get_upload_url")
             /\ requested_operation ev <> Some (JStr "complete_upload"))) :
  table (step E ev w) = table w.
Proof.
  unfold step.
  destruct H as [Ho|[Hs|[Hv|[Hu Hc]]]].
  - destruct (eff_handler_owner E ev w) as [Ht|[Hn _]]; [exact Ht | contradiction].
  - destruct (eff_handler_owner E ev w) as [Ht|[_ [Hs' _]]]; [exact Ht | congruence].
  - destruct (eff_handler_owner E ev w) as [Ht|(_ & _ & uid & Hv' & _)]; [exact Ht | congruence].
  - destruct (eff_handler E ev w) as [Ht|[[Hop _]|[Hop _]]];
      [exact Ht | contradiction | contradiction].
Qed.

Lemma handler_read_only_ops_witness :
  let ev := post "Bearer tok_u1" [("operation", JStr "get_download_url"); ("file_id", JStr "u1_0f345508")] in
  let ev' := post "Bearer tok_u9" (upload_body "photo.jpg" 1024 "x") in
  table (step (env_at t1) ev w1) = table w1
  /\ table (step (env_at t1) ev' w1) = table w1.
Proof.
  cbv zeta. split.
  - apply handler_read_only_ops. do 3 right. split; vm_compute; discriminate.
  - apply handler_read_only_ops. right; right; left. vm_compute. reflexivity.
Defined.

(* ------------------------------------------------------------------ *)
(** ** complete_upload and get_download_url *)

(** X4: complete_upload with a non-empty string [file_id] and DynamoDB
    answering: a record at [(file_id, user_id)] owned by the caller is
    replaced by its completed version (status "completed", last_modified
    the current time, all other fields kept) with 200; when there is no
    record at that key the answer is 404 and the table is unchanged.  In
    both cases exactly one update_item call is made. *)
Theorem complete_upload_outcomes (E : env) (bd : list (string * json)) (uid : string)
    (w : world) (f : string)
    (Hf : jget_default "file_id" bd JNull = JStr f) (Hne : f <> EmptyString)
    (Hddb : ddb_error E = None) :
  (forall it, table w !! (f, uid) = Some it -> user_id it = uid ->
   handle_complete_upload E bd uid w
   = (Ok (msg_response 200 "message" "Upload completed successfully"),
      {| table := <[(f, uid) := mark_completed it (now E)]> (table w);
         calls := calls w ++ [CUpdateItem (f, uid)] |}))
  /\ (table w !! (f, uid) = None ->
      handle_complete_upload E bd uid w
      = (Ok (msg_response 404 "error" "File not found or access denied"),
         {| table := table w; calls := calls w ++ [CUpdateItem (f, uid)] |})).
Proof.
  unfold handle_complete_upload, update_item_complete, error_response, msg_response.
  rewrite Hf, (truthy_JStr f Hne). cbn [negb].
  split.
  - intros it Hk Hu. run_M. rewrite Hddb. simpl. rewrite Hk, Hu, String.eqb_refl. reflexivity.
  - intros Hk. run_M. rewrite Hddb. simpl. rewrite Hk. reflexivity.
Qed.

Lemma complete_upload_outcomes_witness :
  let bd := [("operation", JStr "complete_upload"); ("file_id", JStr "u1_0f345508")] in
  (forall it, table w1 !! ("u1_0f345508", "u1") = Some it -> user_id it = "u1" ->
   handle_complete_upload (env_at t1) bd "u1" w1
   = (Ok (msg_response 200 "message" "Upload completed successfully"),
      {| table := <[("u1_0f345508", "u1") := mark_completed it (now (env_at t1))]> (table w1);
         calls := calls w1 ++ [CUpdateItem ("u1_0f345508", "u1")] |}))
  /\ (table w1 !! ("u1_0f345508", "u1") = None ->
      handle_complete_upload (env_at t1) bd "u1" w1
      = (Ok (msg_response 404 "error" "File not found or access denied"),
         {| table := table w1; calls := calls w1 ++ [CUpdateItem ("u1_0f345508", "u1")] |})).
Proof.
  cbv zeta. apply complete_upload_outcomes; [reflexivity | discriminate | reflexivity].
Defined.

(** X5: complete_upload and get_download_url answer 400 "Missing file_id"
    when the [file_id] of the body is absent or falsy (null, "", 0, false,
    an empty list or object), without calling any collaborator and
    without touching the table. *)
Theorem missing_file_id_rejected (E : env) (bd : list (string * json)) (uid : string)
    (w : world) (Hf : truthy (jget_default "file_id" bd JNull) = false) :
  handle_complete_upload E bd uid w = (Ok (msg_response 400 "error" "Missing file_id"), w)
  /\ handle_get_download_url E bd uid w = (Ok (msg_response 400 "error" "Missing file_id"), w).
Proof.
  unfold handle_complete_upload, handle_get_download_url. cbv zeta. rewrite Hf.
  split; reflexivity.
Qed.

Lemma missing_file_id_rejected_witness :
  truthy (jget_default "file_id" [("file_id", JStr EmptyString)] JNull) = false
  /\ handle_complete_upload (env_at t1) [("file_id", JStr EmptyString)] "u1" w1
     = (Ok (msg_response 400 "error" "Missing file_id"), w1)
  /\ handle_get_download_url (env_at t1) [("file_id", JStr EmptyString)] "u1" w1
     = (Ok (msg_response 400 "error" "Missing file_id"), w1).
Proof.
  split; [reflexivity |]. apply missing_file_id_rejected. reflexivity.
Defined.

(** X6: when DynamoDB fails with an error code, complete_upload answers
    500 "Database error" (404 "File not found or access denied" if the
    code is ConditionalCheckFailedException) and get_download_url answers
    500 "Internal server error"; the table is unchanged and only the one
    DynamoDB call is made. *)
Theorem dynamodb_failure_responses (E : env) (bd : list (string * json)) (uid : string)
    (w : world) (f code : string)
    (Hf : jget_default "file_id" bd JNull = JStr f) (Hne : f <> EmptyString)
    (Hddb : ddb_error E = Some code) :
  handle_complete_upload E bd uid w
  = (Ok (if String.eqb code "ConditionalCheckFailedException"
         then msg_response 404 "error" "File not found or access denied"
         else msg_response 500 "error" "Database error"),
     {| table := table w; calls := calls w ++ [CUpdateItem (f, uid)] |})
  /\ handle_get_download_url E bd uid w
     = (Ok (msg_response 500 "error" "Internal server error"),
        {| table := table w; calls := calls w ++ [CGetItem (f, uid)] |}).
Proof.
  unfold handle_complete_upload, handle_get_download_url, update_item_complete, get_item,
    error_response, msg_response.
  cbv zeta. rewrite Hf, (truthy_JStr f Hne). cbn [negb].
  split; run_M; rewrite Hddb; simpl; [| reflexivity].
  destruct (String.eqb code "ConditionalCheckFailedException"); reflexivity.
Qed.

Lemma dynamodb_failure_responses_witness :
  let E := {| cognito_verify := cognito_verify (env_at t1); s3_presign := s3_presign (env_at t1);
              ddb_error := Some "ProvisionedThroughputExceededException";
              ddb_rejects := ddb_rejects (env_at t1); now := t1 |} in
  handle_complete_upload E [("file_id", JStr "u1_0f345508")] "u1" w1
  = (Ok (if String.eqb "ProvisionedThroughputExceededException" "ConditionalCheckFailedException"
         then msg_response 404 "error" "File not found or access denied"
         else msg_response 500 "error" "Database error"),
     {| table := table w1; calls := calls w1 ++ [CUpdateItem ("u1_0f345508", "u1")] |})
  /\ handle_get_download_url E [("file_id", JStr "u1_0f345508")] "u1" w1
     = (Ok (msg_response 500 "error" "Internal server error"),
        {| table := table w1; calls := calls w1 ++ [CGetItem ("u1_0f345508", "u1")] |}).
Proof.
  cbv zeta. apply dynamodb_failure_responses; [reflexivity | discriminate | reflexivity].
Defined.

(** The answer of get_download_url for a present [file_id], DynamoDB
    answering. *)
Lemma download_run (E : env) (bd : list (string * json)) (uid : string) (w : world)
    (f : string)
    (Hf : jget_default "file_id" bd JNull = JStr f) (Hne : f <> EmptyString)
    (Hddb : ddb_error E = None) :
  handle_get_download_url E bd uid w
  = match table w !! (f, uid) with
    | None => (Ok (msg_response 404 "error" "File not found"),
               {| table := table w; calls := calls w ++ [CGetItem (f, uid)] |})
    | Some it =>
        let key := object_key uid f (filename it) in
        (Ok (match s3_presign E "get_object" key None with
             | Some url =>
                 if String.eqb url EmptyString
                 then msg_response 500 "error" "Failed to generate download URL"
                 else if dumpable (download_body url (item_from_dynamodb it))
                 then create_response 200 (download_body url (item_from_dynamodb it))
                 else msg_response 500 "error" "Internal server error"
             | None => msg_response 500 "error" "Failed to generate download URL"
             end),
         {| table := table w; calls := calls w ++ [CGetItem (f, uid); CPresign "get_object" key] |})
    end.
Proof.
  unfold handle_get_download_url, get_item, create_signed_url, error_response, msg_response.
  cbv zeta. rewrite Hf, (truthy_JStr f Hne). cbn [negb].
  run_M. rewrite Hddb. simpl.
  destruct (table w !! (f, uid)) as [it|]; [| reflexivity].
  simpl. rewrite <- app_assoc.
  destruct (s3_presign _ _ _ _) as [url|]; [| reflexivity].
  simpl. destruct (String.eqb url EmptyString); [reflexivity |].
  unfold download_body. simpl.
  destruct (dumpable (from_dynamodb (file_size it))), (dumpable (from_dynamodb (title it))),
    (dumpable (from_dynamodb (description it))), (dumpable (from_dynamodb (tags it)));
    reflexivity.
Qed.

(** A record read back from DynamoDB whose stored size is a number has a
    [Decimal] size, which [json.dumps] refuses. *)
Lemma download_body_decimal (url : string) (it : item) (z : Z) :
  file_size it = JNum z -> dumpable (download_body url (item_from_dynamodb it)) = false.
Proof. intros Hz. unfold download_body. simpl. rewrite Hz. reflexivity. Qed.

(** X7: get_download_url with a non-empty string [file_id] and DynamoDB
    answering: no record at [(file_id, user_id)] gives 404 "File not
    found" after one get_item call.  For a record whose presigned
    get_object URL for [uploads/<user_id>/<file_id>/<filename>] is a
    non-empty string, the answer is 200 with that URL and the record's
    filename, file type, size, title, description and tags as boto3 reads
    them back, when [json.dumps] accepts that body, and 500 "Internal
    server error" otherwise; in particular it is 500 whenever the stored
    size is a number, which boto3 returns as a [Decimal].  The table is
    never changed. *)
Theorem download_outcomes (E : env) (bd : list (string * json)) (uid : string)
    (w : world) (f : string)
    (Hf : jget_default "file_id" bd JNull = JStr f) (Hne : f <> EmptyString)
    (Hddb : ddb_error E = None) :
  (table w !! (f, uid) = None ->
   handle_get_download_url E bd uid w
   = (Ok (msg_response 404 "error" "File not found"),
      {| table := table w; calls := calls w ++ [CGetItem (f, uid)] |}))
  /\ (forall it url, table w !! (f, uid) = Some it ->
      s3_presign E "get_object" (object_key uid f (filename it)) None = Some url ->
      url <> EmptyString ->
      handle_get_download_url E bd uid w
      = (Ok (if dumpable (download_body url (item_from_dynamodb it))
             then create_response 200 (download_body url (item_from_dynamodb it))
             else msg_response 500 "error" "Internal server error"),
         {| table := table w;
            calls := calls w ++ [CGetItem (f, uid); CPresign "get_object" (object_key uid f (filename it))] |}))
  /\ (forall it url z, table w !! (f, uid) = Some it ->
      s3_presign E "get_object" (object_key uid f (filename it)) None = Some url ->
      url <> EmptyString -> file_size it = JNum z ->
      handle_get_download_url E bd uid w
      = (Ok (msg_response 500 "error" "Internal server error"),
         {| table := table w;
            calls := calls w ++ [CGetItem (f, uid); CPresign "get_object" (object_key uid f (filename it))] |})).
Proof.
  rewrite (download_run E bd uid w f Hf Hne Hddb).
  split; [intros Hk; rewrite Hk; reflexivity |].
  split.
  - intros it url Hk Hu Hurl. rewrite Hk. cbv zeta. rewrite Hu.
    apply String.eqb_neq in Hurl. rewrite Hurl. reflexivity.
  - intros it url z Hk Hu Hurl Hz. rewrite Hk. cbv zeta. rewrite Hu.
    apply String.eqb_neq in Hurl. rewrite Hurl.
    rewrite (download_body_decimal url it z Hz). reflexivity.
Qed.

Lemma download_outcomes_witness :
  let bd := [("operation", JStr "get_download_url"); ("file_id", JStr "u1_0f345508")] in
  table w1 !! ("u1_0f345508", "u1") <> None
  /\ ((table w1 !! ("u1_0f345508", "u1") = None ->
      handle_get_download_url (env_at t1) bd "u1" w1
      = (Ok (msg_response 404 "error" "File not found"),
         {| table := table w1; calls := calls w1 ++ [CGetItem ("u1_0f345508", "u1")] |}))
  /\ (forall it url, table w1 !! ("u1_0f345508", "u1") = Some it ->
      s3_presign (env_at t1) "get_object" (object_key "u1" "u1_0f345508" (filename it)) None = Some url ->
      url <> EmptyString ->
      handle_get_download_url (env_at t1) bd "u1" w1
      = (Ok (if dumpable (download_body url (item_from_dynamodb it))
             then create_response 200 (download_body url (item_from_dynamodb it))
             else msg_response 500 "error" "Internal server error"),
         {| table := table w1;
            calls := calls w1 ++ [CGetItem ("u1_0f345508", "u1");
                                  CPresign "get_object" (object_key "u1" "u1_0f345508" (filename it))] |}))
  /\ (forall it url z, table w1 !! ("u1_0f345508", "u1") = Some it ->
      s3_presign (env_at t1) "get_object" (object_key "u1" "u1_0f345508" (filename it)) None = Some url ->
      url <> EmptyString -> file_size it = JNum z ->
      handle_get_download_url (env_at t1) bd "u1" w1
      = (Ok (msg_response 500 "error" "Internal server error"),
         {| table := table w1;
            calls := calls w1 ++ [CGetItem ("u1_0f345508", "u1");
                                  CPresign "get_object" (object_key "u1" "u1_0f345508" (filename it))] |}))).
Proof.
  cbv zeta. split; [vm_compute; discriminate |].
  apply download_outcomes; [reflexivity | discriminate | reflexivity].
Defined.

(* ------------------------------------------------------------------ *)
(** ** Request-upload followed by get_download_url *)

(** The item request-upload stores for [name], [file_info] fields [fi]
    and [metadata] fields [md]. *)
Lemma upload_ok_inv (E : env) (bd : list (string * json)) (uid : string)
    (w w' : world) (r : response) (fi md : list (string * json)) (fname : string)
    (Hrun : handle_get_upload_url E bd uid w = (Ok r, w'))
    (H200 : statusCode r = 200)
    (Hfi : jget_default "file_info" bd (JObj []) = JObj fi)
    (Hmd : jget_default "metadata" bd (JObj []) = JObj md)
    (Hname : jget_default "name" fi (JStr EmptyString) = JStr fname) :
  let fid := generate_file_id uid fname (now E) in
  exists url it,
    body r = JObj [("upload_url", JStr url); ("file_id", JStr fid); ("expires_in", JNum 3600)]
    /\ table w' = <[(fid, uid) := it]> (table w)
    /\ filename it = fname
    /\ file_type it = match category_of (lower (splitext_ext fname)) with
                      | Some ft => ft | None => "other" end
    /\ file_size it = jget_default "size" fi (JNum 0)
    /\ title it = jget_default "title" md (JStr fname)
    /\ description it = jget_default "description" md (JStr EmptyString)
    /\ tags it = jget_default "tags" md (JArr []).
Proof.
  cbv zeta.
  unfold handle_get_upload_url, store_file_metadata, put_item, create_signed_url,
    error_response in Hrun.
  cbv zeta in Hrun. run_M.
  destruct (validate_file _) as [errs|e]; simpl in Hrun; [| discriminate Hrun].
  destruct errs as [|e0 errs]; simpl in Hrun;
    [| rewrite dumpable_strings in Hrun; injection Hrun as <- <-; discriminate H200].
  rewrite Hfi, Hmd in Hrun. simpl in Hrun. rewrite Hname in Hrun. simpl in Hrun.
  match type of Hrun with context [opt_truthy (s3_presign E ?m ?k ?c)] =>
    destruct (s3_presign E m k c) as [url|]; simpl in Hrun end;
    [| injection Hrun as <- <-; discriminate H200].
  destruct (String.eqb url EmptyString); simpl in Hrun;
    [injection Hrun as <- <-; discriminate H200 |].
  destruct (item_serialize_error _); simpl in Hrun;
    [injection Hrun as <- <-; discriminate H200 |].
  destruct (ddb_error E); simpl in Hrun; [injection Hrun as <- <-; discriminate H200 |].
  destruct (ddb_rejects E _); simpl in Hrun; [injection Hrun as <- <-; discriminate H200 |].
  injection Hrun as <- <-.
  eexists url, _. split; [reflexivity |]. split; [reflexivity |].
  repeat split.
Qed.

(** X8: a file whose request-upload succeeded with a numeric (or absent)
    size cannot be fetched by its owner: after a 200 from request-upload,
    a get_download_url for the returned [file_id] by the same user, with
    DynamoDB answering, answers 500: "Failed to generate download URL"
    when S3 gives no URL or an empty one, and "Internal server error"
    otherwise, since boto3 reads the stored size back as a [Decimal] that
    [json.dumps] refuses.  The upload's answer carries that [file_id]. *)
Theorem upload_then_download (E E' : env) (bd : list (string * json)) (uid : string)
    (w w' : world) (r : response) (fi md : list (string * json)) (fname : string) (z : Z)
    (Hrun : handle_get_upload_url E bd uid w = (Ok r, w'))
    (H200 : statusCode r = 200)
    (Hfi : jget_default "file_info" bd (JObj []) = JObj fi)
    (Hmd : jget_default "metadata" bd (JObj []) = JObj md)
    (Hname : jget_default "name" fi (JStr EmptyString) = JStr fname)
    (Hsize : jget_default "size" fi (JNum 0) = JNum z)
    (Hddb : ddb_error E' = None) :
  let fid := generate_file_id uid fname (now E) in
  jget "file_id" (match body r with JObj b => b | _ => [] end) = Some (JStr fid)
  /\ fst (handle_get_download_url E' [("operation", JStr "get_download_url"); ("file_id", JStr fid)] uid w')
     = Ok (match s3_presign E' "get_object" (object_key uid fid fname) None with
           | Some url =>
               if String.eqb url EmptyString
               then msg_response 500 "error" "Failed to generate download URL"
               else msg_response 500 "error" "Internal server error"
           | None => msg_response 500 "error" "Failed to generate download URL"
           end).
Proof.
  cbv zeta.
  destruct (upload_ok_inv E bd uid w w' r fi md fname Hrun H200 Hfi Hmd Hname)
    as (url0 & it & Hb & Ht & Hn & _ & Hsz & _).
  split; [rewrite Hb; reflexivity |].
  assert (Hne : generate_file_id uid fname (now E) <> EmptyString)
    by (unfold generate_file_id; destruct uid; simpl; discriminate).
  rewrite (download_run E' [("operation", JStr "get_download_url"); ("file_id", JStr (generate_file_id uid fname (now E)))] uid w' _ eq_refl Hne Hddb).
  rewrite Ht, lookup_insert_eq. cbv zeta. rewrite Hn.
  destruct (s3_presign _ _ _ _) as [url|]; [| reflexivity].
  destruct (String.eqb url EmptyString); [reflexivity |].
  rewrite (download_body_decimal url it z) by (rewrite Hsz; exact Hsize).
  reflexivity.
Qed.

Lemma upload_then_download_witness :
  let bd := upload_body "photo.jpg" 1024 "first" in
  let run := handle_get_upload_url (env_at t1) bd "u1" world0 in
  let r := match fst run with Ok r => r | Raise _ => create_response 500 JNull end in
  let fid := generate_file_id "u1" "photo.jpg" (now (env_at t1)) in
  run = (Ok r, snd run) /\ statusCode r = 200
  /\ jget "file_id" (match body r with JObj b => b | _ => [] end) = Some (JStr fid)
  /\ fst (handle_get_download_url (env_at t1)
            [("operation", JStr "get_download_url"); ("file_id", JStr fid)] "u1" (snd run))
     = Ok (match s3_presign (env_at t1) "get_object" (object_key "u1" fid "photo.jpg") None with
           | Some url =>
               if String.eqb url EmptyString
               then msg_response 500 "error" "Failed to generate download URL"
               else msg_response 500 "error" "Internal server error"
           | None => msg_response 500 "error" "Failed to generate download URL"
           end).
Proof.
  cbv zeta.
  assert (Hrun : handle_get_upload_url (env_at t1) (upload_body "photo.jpg" 1024 "first") "u1" world0
    = (Ok (match fst (handle_get_upload_url (env_at t1) (upload_body "photo.jpg" 1024 "first") "u1" world0)
           with Ok r => r | Raise _ => create_response 500 JNull end),
       snd (handle_get_upload_url (env_at t1) (upload_body "photo.jpg" 1024 "first") "u1" world0)))
    by (vm_compute; reflexivity).
  assert (H200 : statusCode (match fst (handle_get_upload_url (env_at t1) (upload_body "photo.jpg" 1024 "first") "u1" world0)
           with Ok r => r | Raise _ => create_response 500 JNull end) = 200)
    by (vm_compute; reflexivity).
  split; [exact Hrun | split; [exact H200 |]].
  apply (upload_then_download (env_at t1) (env_at t1) _ "u1" world0 _ _
           [("name", JStr "photo.jpg"); ("size", JNum 1024); ("type", JStr "image/jpeg")]
           [("title", JStr "first")] "photo.jpg" 1024 Hrun H200);
    reflexivity.
Defined.

(* ------------------------------------------------------------------ *)
(** ** Request-upload before the record is written *)

(** X9: when [validate_file] reports violations, request-upload answers
    400 "File validation failed" with the violations as [details], without
    calling S3 or DynamoDB and without touching the table. *)
Theorem upload_validation_failure (E : env) (bd : list (string * json)) (uid : string)
    (w : world) (errs : list string)
    (Hv : validate_file (jget_default "file_info" bd (JObj [])) = Ok errs)
    (Hne : errs <> []) :
  handle_get_upload_url E bd uid w
  = (Ok (create_response 400 (JObj [("error", JStr "File validation failed");
                                    ("details", JArr (map JStr errs))])), w).
Proof.
  unfold handle_get_upload_url. cbv zeta. run_M. rewrite Hv. simpl.
  destruct errs as [|e errs]; [contradiction |].
  rewrite (dumpable_strings (e :: errs)). reflexivity.
Qed.

Lemma upload_validation_failure_witness :
  let bd := upload_body "virus.exe" 1024 "x" in
  validate_file (jget_default "file_info" bd (JObj [])) = Ok [type_msg ".exe"]
  /\ handle_get_upload_url (env_at t1) bd "u1" world0
     = (Ok (create_response 400 (JObj [("error", JStr "File validation failed");
                                       ("details", JArr (map JStr [type_msg ".exe"]))])), world0).
Proof.
  cbv zeta. assert (Hv : validate_file (jget_default "file_info" (upload_body "virus.exe" 1024 "x") (JObj []))
                         = Ok [type_msg ".exe"]) by (vm_compute; reflexivity).
  split; [exact Hv | apply upload_validation_failure; [exact Hv | discriminate]].
Defined.

(** X10: when the [metadata] of a request-upload is not a JSON object,
    the upload URL is still requested from S3 but storing the record
    fails: the answer is 500 "Failed to store file metadata", no put_item
    call is made and the table is unchanged. *)
Theorem upload_metadata_not_object (E : env) (bd : list (string * json)) (uid : string)
    (w : world) (fi : list (string * json)) (fname : string)
    (Hfi : jget_default "file_info" bd (JObj []) = JObj fi)
    (Hv : validate_file (JObj fi) = Ok [])
    (Hname : jget_default "name" fi (JStr EmptyString) = JStr fname)
    (Hmd : forall fs, jget_default "metadata" bd (JObj []) <> JObj fs)
    (Hu : forall ct, opt_truthy (s3_presign E "put_object"
                       (object_key uid (generate_file_id uid fname (now E)) fname) ct) = true) :
  handle_get_upload_url E bd uid w
  = (Ok (msg_response 500 "error" "Failed to store file metadata"),
     {| table := table w;
        calls := calls w ++ [CPresign "put_object"
                               (object_key uid (generate_file_id uid fname (now E)) fname)] |}).
Proof.
  unfold handle_get_upload_url, store_file_metadata, create_signed_url, error_response,
    msg_response.
  cbv zeta. rewrite Hfi, Hv. run_M. rewrite Hname. simpl. rewrite Hu. simpl.
  destruct (jget_default "metadata" bd (JObj [])) as [| | | | |fs| |];
    try reflexivity.
  exfalso; exact (Hmd fs eq_refl).
Qed.

Lemma upload_metadata_not_object_witness :
  let bd := [("file_info", JObj [("name", JStr "a.png"); ("size", JNum 5)]); ("metadata", JStr "oops")] in
  handle_get_upload_url (env_at t1) bd "u1" world0
  = (Ok (msg_response 500 "error" "Failed to store file metadata"),
     {| table := table world0;
        calls := calls world0 ++ [CPresign "put_object"
                   (object_key "u1" (generate_file_id "u1" "a.png" (now (env_at t1))) "a.png")] |}).
Proof.
  cbv zeta. apply (upload_metadata_not_object _ _ _ _
                    [("name", JStr "a.png"); ("size", JNum 5)] "a.png");
    [reflexivity | vm_compute; reflexivity | reflexivity | discriminate | intros ct; vm_compute; reflexivity].
Defined.

(* ------------------------------------------------------------------ *)
(** ** The handler on unusual bodies *)

(** X11: for an authenticated non-OPTIONS request (header starting with
    [Bearer ], token accepted by Cognito), after the one Cognito call and
    with the table unchanged, the handler answers: 400 "Invalid JSON in
    request body" for a body [json.loads] rejects with [JSONDecodeError];
    500 "Internal server error" for a body it rejects with another
    exception ([RecursionError], [ValueError]) and for a [null] body;
    500 "Internal server error" for a JSON body that is not an object;
    400 "Invalid operation"
    for an object whose [operation] is none of the three names; and, for
    a request without a body, 400 "File validation failed" with the two
    violations of an empty file_info (empty extension, invalid filename). *)
Theorem handler_body_edge_cases (E : env) (ev : event) (w : world) (uid : string)
    (Hm : httpMethod ev <> Some "OPTIONS")
    (Hauth : startswith "Bearer " (auth_header_of ev) = true)
    (Huid : cognito_verify E (header_token (auth_header_of ev)) = Some uid) :
  let w_v := {| table := table w; calls := calls w ++ [CVerify (header_token (auth_header_of ev))] |} in
  (ev_body ev = Some RawInvalid ->
   handler E ev w = (Ok (msg_response 400 "error" "Invalid JSON in request body"), w_v))
  /\ (forall e, ev_body ev = Some (RawRejected e) ->
      handler E ev w = (Ok (msg_response 500 "error" "Internal server error"), w_v))
  /\ (ev_body ev = Some RawNull ->
      handler E ev w = (Ok (msg_response 500 "error" "Internal server error"), w_v))
  /\ (forall j, ev_body ev = Some (RawJSON j) -> (forall fs, j <> JObj fs) ->
      handler E ev w = (Ok (msg_response 500 "error" "Internal server error"), w_v))
  /\ (forall bd, ev_body ev = Some (RawJSON (JObj bd)) ->
      let op := jget_default "operation" bd (JStr "get_upload_url") in
      json_is op "get_upload_url" = false -> json_is op "complete_upload" = false ->
      json_is op "get_download_url" = false ->
      handler E ev w = (Ok (msg_response 400 "error" "Invalid operation"), w_v))
  /\ (ev_body ev = None ->
      handler E ev w
      = (Ok (create_response 400 (JObj [("error", JStr "File validation failed");
                                        ("details", JArr [JStr (type_msg EmptyString);
                                                          JStr name_msg])])), w_v)).
Proof.
  unfold auth_header_of, header_token in *. cbv zeta.
  unfold handler. cbv zeta.
  destruct (decide _) as [Heq|_]; [contradiction |].
  destruct (headers ev) as [hs|]; [| discriminate Hauth].
  rewrite Hauth. cbn [negb].
  unfold try_catch, mbind, M_bind, verify_token, log, as_dict, mret, M_ret, default,
    error_response, msg_response.
  cbv beta iota zeta. unfold default in Huid. rewrite Huid.
  split; [| split; [| split; [| split; [| split]]]].
  - intros Hb. rewrite Hb. reflexivity.
  - intros e Hb. rewrite Hb. reflexivity.
  - intros Hb. rewrite Hb. reflexivity.
  - intros j Hb Hj. rewrite Hb. destruct j as [| | | | |fs| |]; try reflexivity.
    exfalso; exact (Hj fs eq_refl).
  - intros bd Hb H1 H2 H3. rewrite Hb. unfold mbind, M_bind, id. cbv beta iota zeta.
    rewrite H1, H2, H3. reflexivity.
  - intros Hb. rewrite Hb. reflexivity.
Qed.

Lemma handler_body_edge_cases_witness :
  let ev := post "Bearer tok_u1" [("operation", JStr "delete")] in
  let w_v := {| table := table w1; calls := calls w1 ++ [CVerify (header_token (auth_header_of ev))] |} in
  (ev_body ev = Some RawInvalid ->
   handler (env_at t1) ev w1 = (Ok (msg_response 400 "error" "Invalid JSON in request body"), w_v))
  /\ (forall e, ev_body ev = Some (RawRejected e) ->
      handler (env_at t1) ev w1 = (Ok (msg_response 500 "error" "Internal server error"), w_v))
  /\ (ev_body ev = Some RawNull ->
      handler (env_at t1) ev w1 = (Ok (msg_response 500 "error" "Internal server error"), w_v))
  /\ (forall j, ev_body ev = Some (RawJSON j) -> (forall fs, j <> JObj fs) ->
      handler (env_at t1) ev w1 = (Ok (msg_response 500 "error" "Internal server error"), w_v))
  /\ (forall bd, ev_body ev = Some (RawJSON (JObj bd)) ->
      let op := jget_default "operation" bd (JStr "get_upload_url") in
      json_is op "get_upload_url" = false -> json_is op "complete_upload" = false ->
      json_is op "get_download_url" = false ->
      handler (env_at t1) ev w1 = (Ok (msg_response 400 "error" "Invalid operation"), w_v))
  /\ (ev_body ev = None ->
      handler (env_at t1) ev w1
      = (Ok (create_response 400 (JObj [("error", JStr "File validation failed");
                                        ("details", JArr [JStr (type_msg EmptyString);
                                                          JStr name_msg])])), w_v)).
Proof.
  cbv zeta. apply (handler_body_edge_cases _ _ _ "u1"); [discriminate | reflexivity | reflexivity].
Defined.

(* ------------------------------------------------------------------ *)
(** ** Strings: file ids, extensions, content types, bearer tokens *)

Lemma hex_length (bs : list Z) : String.length (MD5.hex bs) = (2 * length bs)%nat.
Proof. induction bs as [|b bs IH]; simpl; [reflexivity | rewrite IH; lia]. Qed.

Lemma le_bytes_length (n : nat) (x : Z) : length (MD5.le_bytes n x) = n.
Proof. unfold MD5.le_bytes. rewrite length_map, length_seq. reflexivity. Qed.

Lemma hexdigest_length (s : string) : String.length (MD5.hexdigest s) = 32%nat.
Proof.
  unfold MD5.hexdigest. cbv zeta.
  destruct (MD5.md5_blocks _ _ _) as [a b c d].
  rewrite hex_length, !length_app, !le_bytes_length. reflexivity.
Qed.

Lemma get_in (k : nat) (s : string) (c : ascii) :
  String.get k s = Some c -> In c (list_ascii_of_string s).
Proof.
  revert k. induction s as [|d s IH]; intros k H; [discriminate |].
  destruct k as [|k]; simpl in H.
  - injection H as <-. left; reflexivity.
  - right. exact (IH k H).
Qed.

Lemma hex_char_in (n : Z) : In (MD5.hex_char n) (list_ascii_of_string hex_digits).
Proof.
  unfold MD5.hex_char. destruct (String.get _ _) as [c|] eqn:H.
  - exact (get_in _ _ _ H).
  - left; reflexivity.
Qed.

Lemma hex_in (bs : list Z) (c : ascii) :
  In c (list_ascii_of_string (MD5.hex bs)) -> In c (list_ascii_of_string hex_digits).
Proof.
  induction bs as [|b bs IH]; simpl; [intros [] |].
  intros [<-|[<-|H]]; [apply hex_char_in | apply hex_char_in | exact (IH H)].
Qed.

Lemma hexdigest_in (s : string) (c : ascii) :
  In c (list_ascii_of_string (MD5.hexdigest s)) -> In c (list_ascii_of_string hex_digits).
Proof.
  unfold MD5.hexdigest. cbv zeta.
  destruct (MD5.md5_blocks _ _ _) as [a b c0 d]. apply hex_in.
Qed.

Lemma substring0_length (n : nat) (s : string) :
  (n <= String.length s)%nat -> String.length (substring 0 n s) = n.
Proof.
  revert n. induction s as [|c s IH]; intros n H; destruct n as [|n]; simpl in *;
    [reflexivity | lia | reflexivity | rewrite IH; [reflexivity | lia]].
Qed.

Lemma substring0_in (n : nat) (s : string) (c : ascii) :
  In c (list_ascii_of_string (substring 0 n s)) -> In c (list_ascii_of_string s).
Proof.
  revert n. induction s as [|d s IH]; intros n H; destruct n as [|n]; simpl in *;
    [contradiction | exact H | contradiction |].
  destruct H as [<-|H]; [left; reflexivity | right; exact (IH n H)].
Qed.

(** X12: every generated file id is the owner id, an underscore and
    exactly eight lowercase hexadecimal digits. *)
Theorem generate_file_id_shape (user_id0 name ts : string) :
  exists h, generate_file_id user_id0 name ts = user_id0 +:+ "_" +:+ h
       /\ String.length h = 8%nat
       /\ forall c, In c (list_ascii_of_string h) -> In c (list_ascii_of_string hex_digits).
Proof.
  unfold generate_file_id. cbv zeta.
  eexists. split; [reflexivity | split].
  - apply substring0_length. rewrite hexdigest_length. lia.
  - intros c H. apply substring0_in in H. exact (hexdigest_in _ c H).
Qed.

Lemma rfind_from_absent (c : ascii) (s : string) (i b : Z) :
  ~ In c (list_ascii_of_string s) -> rfind_from c s i b = b.
Proof.
  revert i. induction s as [|d s IH]; intros i H; [reflexivity |].
  simpl. destruct (Ascii.eqb c d) eqn:E.
  - apply Ascii.eqb_eq in E. subst. exfalso; apply H; left; reflexivity.
  - apply IH. intros H'. apply H. right. exact H'.
Qed.

Lemma rfind_from_ge (c : ascii) (s : string) (i b : Z) :
  -1 <= b -> 0 <= i -> -1 <= rfind_from c s i b.
Proof.
  revert i b. induction s as [|d s IH]; intros i b Hb Hi; simpl; [exact Hb |].
  apply IH; [destruct (Ascii.eqb c d); lia | lia].
Qed.

Lemma splitext_no_dot (name : string) :
  ~ In "."%char (list_ascii_of_string name) -> splitext_ext name = EmptyString.
Proof.
  intros H. unfold splitext_ext, rfind. cbv zeta.
  change "."%char with dot in H. rewrite (rfind_from_absent dot name 0 (-1) H).
  assert (Hs : -1 <= rfind_from slash name 0 (-1)) by (apply rfind_from_ge; lia).
  destruct (Z.ltb_spec (rfind_from slash name 0 (-1)) (-1)); [lia | reflexivity].
Qed.

(** X13: a name without a dot has the empty extension, so
    [validate_file] always reports the type violation
    "File type  is not allowed" for it, whatever the declared size. *)
Theorem validate_name_without_dot (fi : list (string * json)) (name : string) (big : bool)
    (Hdot : ~ In "."%char (list_ascii_of_string name))
    (Hname : jget "name" fi = Some (JStr name))
    (Hsize : size_exceeds (jget_default "size" fi (JNum 0)) = Ok big) :
  splitext_ext name = EmptyString
  /\ exists errs, validate_file (JObj fi) = Ok errs /\ In (type_msg EmptyString) errs.
Proof.
  pose proof (splitext_no_dot name Hdot) as He. split; [exact He |].
  unfold validate_file. rewrite Hsize. unfold jget_default at 1. rewrite Hname.
  cbn [as_str]. rewrite He. simpl lower.
  assert (Hm : mem_string EmptyString allowed_extensions = false) by reflexivity.
  rewrite Hm. eexists; split; [reflexivity |].
  apply in_or_app; left. apply in_or_app; right. left; reflexivity.
Qed.

Lemma validate_name_without_dot_witness :
  splitext_ext "README" = EmptyString
  /\ exists errs, validate_file (JObj [("name", JStr "README"); ("size", JNum 10)]) = Ok errs
                  /\ In (type_msg EmptyString) errs.
Proof.
  apply (validate_name_without_dot _ "README" false);
    [simpl; intros H; repeat (destruct H as [H|H]; [discriminate H |]); exact H
    | reflexivity | reflexivity].
Defined.

Lemma lower_char_sep (d : ascii) :
  Ascii.eqb dot (lower_char d) = Ascii.eqb dot d
  /\ Ascii.eqb slash (lower_char d) = Ascii.eqb slash d
  /\ Ascii.eqb (lower_char d) dot = Ascii.eqb d dot.
Proof.
  destruct d as [b0 b1 b2 b3 b4 b5 b6 b7].
  destruct b0, b1, b2, b3, b4, b5, b6, b7; vm_compute; auto.
Qed.

Lemma rfind_from_lower (c : ascii) (s : string) (i b : Z) :
  (forall d, Ascii.eqb c (lower_char d) = Ascii.eqb c d) ->
  rfind_from c (lower s) i b = rfind_from c s i b.
Proof.
  intros Hc. revert i b. induction s as [|d s IH]; intros i b; simpl; [reflexivity |].
  rewrite Hc. apply IH.
Qed.

Lemma length_lower (s : string) : String.length (lower s) = String.length s.
Proof. induction s as [|c s IH]; simpl; [reflexivity | rewrite IH; reflexivity]. Qed.

Lemma substring_lower (n m : nat) (s : string) :
  substring n m (lower s) = lower (substring n m s).
Proof.
  revert n m. induction s as [|c s IH]; intros n m;
    destruct n as [|n]; destruct m as [|m]; simpl; try reflexivity;
    rewrite ?IH; reflexivity.
Qed.

Lemma list_ascii_lower (s : string) :
  list_ascii_of_string (lower s) = map lower_char (list_ascii_of_string s).
Proof. induction s as [|c s IH]; simpl; [reflexivity | rewrite IH; reflexivity]. Qed.

Lemma existsb_map_ascii (f : ascii -> bool) (g : ascii -> ascii) (l : list ascii) :
  existsb f (map g l) = existsb (fun x => f (g x)) l.
Proof. induction l as [|x l IH]; simpl; [reflexivity | rewrite IH; reflexivity]. Qed.

Lemma existsb_ext_ascii (f g : ascii -> bool) (l : list ascii) :
  (forall x, f x = g x) -> existsb f l = existsb g l.
Proof. intros H. induction l as [|x l IH]; simpl; [reflexivity | rewrite H, IH; reflexivity]. Qed.

Lemma splitext_lower (p : string) : splitext_ext (lower p) = lower (splitext_ext p).
Proof.
  unfold splitext_ext, rfind. cbv zeta.
  rewrite !rfind_from_lower by (intros d; apply lower_char_sep).
  destruct (_ <? _); [| reflexivity].
  rewrite substring_lower, list_ascii_lower, existsb_map_ascii.
  erewrite existsb_ext_ascii by (intros d; simpl; rewrite (proj2 (proj2 (lower_char_sep d))); reflexivity).
  destruct (existsb _ _); [| reflexivity].
  rewrite length_lower, substring_lower. reflexivity.
Qed.

(** X14: for names made of code points below U+0100, on which
    [.lower()] works character by character, the extension checks are
    case-insensitive: two names that agree after [.lower()] have the same
    lowercased extension, so they get the same verdict from the type rule
    of [validate_file], the same file type in [store_file_metadata] and the
    same content type in [create_signed_url]. *)
Theorem extension_case_insensitive (n1 n2 : string) (H : lower n1 = lower n2) :
  lower (splitext_ext n1) = lower (splitext_ext n2).
Proof. rewrite <- !splitext_lower, H. reflexivity. Qed.

Lemma extension_case_insensitive_witness :
  lower "Photo.JPG" = lower "PHOTO.jpg"
  /\ lower (splitext_ext "Photo.JPG") = lower (splitext_ext "PHOTO.jpg").
Proof.
  assert (H : lower "Photo.JPG" = lower "PHOTO.jpg") by reflexivity.
  split; [exact H | exact (extension_case_insensitive _ _ H)].
Defined.

Lemma find_none_concat (f : string -> bool) (L : list (string * list string)) :
  existsb f (concat (map snd L)) = false -> find (fun p => existsb f (snd p)) L = None.
Proof.
  induction L as [|[k l] L IH]; simpl; [reflexivity |].
  rewrite existsb_app. intros H. apply orb_false_iff in H as [H1 H2].
  rewrite H1. exact (IH H2).
Qed.

Lemma create_signed_url_put (E : env) (fid fname uid : string) (w : world) :
  create_signed_url E fid fname uid "put_object" w
  = (Ok (s3_presign E "put_object" (object_key uid fid fname)
           (Some (match category_of (lower (splitext_ext fname)) with
                  | Some ft => category_content_type ft (lower (splitext_ext fname))
                  | None => "application/octet-stream"
                  end))),
     {| table := table w; calls := calls w ++ [CPresign "put_object" (object_key uid fid fname)] |}).
Proof. reflexivity. Qed.

(** X15: the content type that [create_signed_url] puts into a presigned
    upload URL depends on the lowercased extension: "application/msword"
    for .doc, .docx, .txt, .rtf and .odt, "application/pdf" for .pdf,
    "image/jpg" for .jpg, and "application/octet-stream" for an extension
    outside the allow-list; S3 is called once and the table is unchanged. *)
Theorem upload_content_types (E : env) (fid fname uid : string) (w : world) :
  let ext := lower (splitext_ext fname) in
  let put ct := (Ok (s3_presign E "put_object" (object_key uid fid fname) (Some ct)),
                 {| table := table w;
                    calls := calls w ++ [CPresign "put_object" (object_key uid fid fname)] |}) in
  (In ext [".doc"; ".docx"; ".txt"; ".rtf"; ".odt"] ->
   create_signed_url E fid fname uid "put_object" w = put "application/msword")
  /\ (ext = ".pdf" -> create_signed_url E fid fname uid "put_object" w = put "application/pdf")
  /\ (ext = ".jpg" -> create_signed_url E fid fname uid "put_object" w = put "image/jpg")
  /\ (mem_string ext allowed_extensions = false ->
      create_signed_url E fid fname uid "put_object" w = put "application/octet-stream").
Proof.
  cbv zeta. rewrite create_signed_url_put.
  split; [| split; [| split]].
  - intros H. repeat (destruct H as [H|H]; [rewrite <- H; reflexivity |]). destruct H.
  - intros H. rewrite H. reflexivity.
  - intros H. rewrite H. reflexivity.
  - intros H. unfold category_of, mem_string. unfold mem_string, allowed_extensions in H.
    rewrite (find_none_concat _ ALLOWED_EXTENSIONS H). reflexivity.
Qed.

Lemma upload_content_types_witness :
  let ext := lower (splitext_ext "Report.DOCX") in
  let put ct := (Ok (s3_presign (env_at t1) "put_object" (object_key "u1" "u1_x" "Report.DOCX") (Some ct)),
                 {| table := table world0;
                    calls := calls world0 ++ [CPresign "put_object" (object_key "u1" "u1_x" "Report.DOCX")] |}) in
  In ext [".doc"; ".docx"; ".txt"; ".rtf"; ".odt"]
  /\ create_signed_url (env_at t1) "u1_x" "Report.DOCX" "u1" "put_object" world0 = put "application/msword".
Proof.
  cbv zeta.
  assert (Hin : In (lower (splitext_ext "Report.DOCX")) [".doc"; ".docx"; ".txt"; ".rtf"; ".odt"])
    by (vm_compute; auto).
  split; [exact Hin |].
  exact (proj1 (upload_content_types (env_at t1) "u1_x" "Report.DOCX" "u1" world0) Hin).
Defined.

Lemma split_char_absent (c : ascii) (s : string) :
  ~ In c (list_ascii_of_string s) -> split_char c s = [s].
Proof.
  induction s as [|d s IH]; intros H; [reflexivity |]. simpl.
  destruct (Ascii.eqb c d) eqn:E.
  - apply Ascii.eqb_eq in E. subst. exfalso; apply H; left; reflexivity.
  - rewrite IH; [reflexivity |]. intros H'; apply H; right; exact H'.
Qed.

Lemma split_char_bearer (tok : string) :
  split_char " "%char ("Bearer " +:+ tok) = "Bearer" :: split_char " "%char tok.
Proof. reflexivity. Qed.

(** X16: from a header [Bearer <rest>] the handler takes as token the
    first space-separated field of [<rest>]; when [<rest>] has no space the
    token is [<rest>] itself. *)
Theorem header_token_bearer (tok : string) :
  header_token ("Bearer " +:+ tok) = nth 0 (split_char " "%char tok) EmptyString
  /\ (~ In " "%char (list_ascii_of_string tok) -> header_token ("Bearer " +:+ tok) = tok).
Proof.
  unfold header_token. rewrite split_char_bearer. split; [reflexivity |].
  intros H. rewrite (split_char_absent _ _ H). reflexivity.
Qed.

Lemma header_token_bearer_witness :
  header_token ("Bearer " +:+ "tok_u1") = nth 0 (split_char " "%char "tok_u1") EmptyString
  /\ (~ In " "%char (list_ascii_of_string "tok_u1") -> header_token ("Bearer " +:+ "tok_u1") = "tok_u1").
Proof. exact (header_token_bearer "tok_u1"). Defined.

(* ------------------------------------------------------------------ *)
(** ** Malformed file_info *)

Lemma validate_file_raises (j : json) :
  ((forall fs, j <> JObj fs) -> validate_file j = Raise AttributeError)
  /\ (forall fi s, j = JObj fi -> jget "size" fi = Some (JStr s) -> validate_file j = Raise TypeError).
Proof.
  split.
  - intros Hj. destruct j as [| | | | |fs| |]; try reflexivity. exfalso; exact (Hj fs eq_refl).
  - intros fi s -> Hs. unfold validate_file, jget_default. rewrite Hs. reflexivity.
Qed.

(** X17: an authenticated request-upload whose [file_info] is not a JSON
    object, or whose declared [size] is a string, makes [validate_file]
    raise; the handler answers 500 "Internal server error" after the one
    Cognito call, without calling S3 or DynamoDB and with the table
    unchanged. *)
Theorem handler_malformed_file_info (E : env) (ev : event) (w : world) (uid : string)
    (bd : list (string * json))
    (Hm : httpMethod ev <> Some "OPTIONS")
    (Hauth : startswith "Bearer " (auth_header_of ev) = true)
    (Huid : cognito_verify E (header_token (auth_header_of ev)) = Some uid)
    (Hb : ev_body ev = Some (RawJSON (JObj bd)))
    (Hop : json_is (jget_default "operation" bd (JStr "get_upload_url")) "get_upload_url" = true)
    (Hfi : (forall fs, jget_default "file_info" bd (JObj []) <> JObj fs)
           \/ exists fi s, jget_default "file_info" bd (JObj []) = JObj fi
                           /\ jget "size" fi = Some (JStr s)) :
  handler E ev w
  = (Ok (msg_response 500 "error" "Internal server error"),
     {| table := table w; calls := calls w ++ [CVerify (header_token (auth_header_of ev))] |}).
Proof.
  assert (Hv : exists e, validate_file (jget_default "file_info" bd (JObj [])) = Raise e).
  { destruct Hfi as [H|(fi & s & H1 & H2)].
    - exists AttributeError. exact (proj1 (validate_file_raises _) H).
    - exists TypeError. exact (proj2 (validate_file_raises _) fi s H1 H2). }
  destruct Hv as [e Hv].
  unfold auth_header_of, header_token in *.
  unfold handler. cbv zeta.
  destruct (decide _) as [Heq|_]; [contradiction |].
  destruct (headers ev) as [hs|]; [| discriminate Hauth].
  rewrite Hauth. cbn [negb].
  unfold try_catch, mbind, M_bind, verify_token, log, as_dict, mret, M_ret, default,
    error_response, msg_response.
  cbv beta iota zeta. unfold default in Huid. rewrite Huid, Hb.
  unfold mbind, M_bind, id. cbv beta iota zeta. rewrite Hop.
  unfold handle_get_upload_url. cbv zeta.
  unfold mbind, M_bind, lift. rewrite Hv. reflexivity.
Qed.

Lemma handler_malformed_file_info_witness :
  let bd := [("file_info", JObj [("name", JStr "a.png"); ("size", JStr "5")])] in
  let ev := post "Bearer tok_u1" bd in
  handler (env_at t1) ev w1
  = (Ok (msg_response 500 "error" "Internal server error"),
     {| table := table w1; calls := calls w1 ++ [CVerify (header_token (auth_header_of ev))] |}).
Proof.
  cbv zeta. apply (handler_malformed_file_info _ _ _ "u1"
                     [("file_info", JObj [("name", JStr "a.png"); ("size", JStr "5")])]);
    [discriminate | reflexivity | reflexivity | reflexivity | reflexivity |].
  right. exists [("name", JStr "a.png"); ("size", JStr "5")], "5". split; reflexivity.
Defined.
